(** * DailyPaper: the digest job of [scripts/daily_papers_email.py]

    A shallow embedding of the script's five functions
    ([fetch_papers_for_date], [get_daily_papers_with_fallback],
    [build_email_html], [build_email_text], [send_email]) and the
    properties its specification states about them.

    Python values are modelled as they reach the script: a parsed JSON
    document is a tree of [None], [bool], [int], [float], [str], [list] and
    [dict] values; a [str] is a sequence of code points; a [dict] keeps its
    keys in insertion order. Network, clock, process environment and mail
    server are a [World] the functions read through logged primitives. *)

From Stdlib Require Import ZArith NArith List Bool Lia String Ascii.
From Stdlib Require Import Floats.SpecFloat Numbers.DecimalString.
Import ListNotations.

#[local] Set Warnings "-register-all".
Local Open Scope Z_scope.

(** ** Text *)

(** A Python [str]: a sequence of Unicode code points. *)
Definition str := list N.

(** The code points of an ASCII literal. *)
Fixpoint lit (s : string) : str :=
  match s with
  | EmptyString => []
  | String a s' => N_of_ascii a :: lit s'
  end.
Arguments lit : simpl never.

Fixpoint str_eqb (a b : str) : bool :=
  match a, b with
  | [], [] => true
  | x :: a', y :: b' => N.eqb x y && str_eqb a' b'
  | _, _ => false
  end.

(** [sep.join(xs)] on a list of strings. *)
Fixpoint join (sep : str) (xs : list str) : str :=
  match xs with
  | [] => []
  | [x] => x
  | x :: rest => x ++ sep ++ join sep rest
  end.

(** [s.startswith(p)], returning what follows the prefix. *)
Fixpoint strip_prefix (p s : str) : option str :=
  match p, s with
  | [], _ => Some s
  | x :: p', y :: s' => if N.eqb x y then strip_prefix p' s' else None
  | _ :: _, [] => None
  end.

(** [str(n)] for an [int]. *)
Definition int_str (z : Z) : str := lit (NilZero.string_of_int (Z.to_int z)).

(** ** Parsed JSON *)

Inductive json : Type :=
| JNull
| JBool (b : bool)
| JInt (z : Z)
| JFloat (f : spec_float)
| JStr (s : str)
| JArr (l : list json)
| JObj (o : list (str * json)).

(** A [dict] with [str] keys, in insertion order; a parsed object has each
    key once. *)
Definition dict := list (str * json).

(** [k in d] *)
Definition dict_has (d : dict) (k : str) : bool :=
  existsb (fun kv => str_eqb (fst kv) k) d.

(** [d.get(k)]: the value, or [None] when the key is missing. *)
Fixpoint dict_get (d : dict) (k : str) : json :=
  match d with
  | [] => JNull
  | (k', v) :: d' => if str_eqb k' k then v else dict_get d' k
  end.

(** Python truth value of a parsed value. *)
Definition truthy (v : json) : bool :=
  match v with
  | JNull => false
  | JBool b => b
  | JInt z => negb (z =? 0)
  | JFloat f => match f with S754_zero _ => false | _ => true end
  | JStr s => match s with [] => false | _ => true end
  | JArr l => match l with [] => false | _ => true end
  | JObj o => match o with [] => false | _ => true end
  end.

(** [a or b] *)
Definition py_or (a b : json) : json := if truthy a then a else b.

Definition is_str (v : json) : bool :=
  match v with JStr _ => true | _ => false end.

(** ** Exceptions and results *)

Inductive transport_failure :=
| ReadTimeout
| DNSFailure
| ConnectionRefused
| HTTPStatus (code : Z)
| BadBody.

Inductive exn :=
| TypeError
| ValueError
| OverflowError
| RuntimeError (msg : str)
| RequestException (f : transport_failure)
| ZoneInfoNotFoundError
| SMTPException (stage : str)
| UnicodeEncodeError
| MessageError.

Inductive result (A : Type) :=
| Ok (a : A)
| Raise (e : exn).
Arguments Ok {A} a.
Arguments Raise {A} e.

Definition rbind {A B} (r : result A) (f : A -> result B) : result B :=
  match r with
  | Ok a => f a
  | Raise e => Raise e
  end.

(** A multipart/alternative message as [send_email] assembles it: the
    three headers and the attached parts (subtype, body) in order. *)
Record message := {
  msg_subject : str;
  msg_from : str;
  msg_to : str;
  msg_parts : list (str * str)
}.

(** ** Builtins of the language runtime

    Library routines the script calls whose text is not part of the
    repository; the development is parametric in them. *)
Record Runtime := {
  (** [int(s)] on a string: the integer, or [ValueError]. *)
  py_int : str -> option Z;
  (** [repr(x)] of a float. *)
  float_repr : spec_float -> str;
  (** [repr(s)] of a string. *)
  str_repr : str -> str;
  (** the [%Y] directive of [strftime]. *)
  strftime_Y : Z -> str;
  (** [msg.as_string()]: [None] when the message serializes, or the
      exception the generator raises on its headers. *)
  as_string_error : message -> option exn
}.

(** ** Paper records *)

(** The dict built at lines 54-59: exactly the four keys, each bound to
    whatever value the extraction produced. *)
Record paper := {
  title : json;
  authors : json;
  abstract : json;
  url : json
}.

Definition HF_API_URL : str := lit "https://huggingface.co/api/daily_papers".

Section Normalizer.
Variable rt : Runtime.

(** [repr(v)], and [str(v)] as used by an f-string field [{v}]. *)
Fixpoint py_repr (v : json) : str :=
  match v with
  | JNull => lit "None"
  | JBool true => lit "True"
  | JBool false => lit "False"
  | JInt z => int_str z
  | JFloat f => float_repr rt f
  | JStr s => str_repr rt s
  | JArr l => lit "[" ++ join (lit ", ") (map py_repr l) ++ lit "]"
  | JObj o =>
      lit "{" ++
      join (lit ", ")
        (map (fun kv => str_repr rt (fst kv) ++ lit ": " ++ py_repr (snd kv)) o)
      ++ lit "}"
  end.

Definition py_str (v : json) : str :=
  match v with
  | JStr s => s
  | _ => py_repr v
  end.

(** [for x in v]: the elements a [for] loop visits, or [TypeError]. *)
Definition py_iter (v : json) : result (list json) :=
  match v with
  | JArr l => Ok l
  | JStr s => Ok (map (fun c => JStr [c]) s)
  | JObj o => Ok (map (fun kv => JStr (fst kv)) o)
  | _ => Raise TypeError
  end.

(** [sep.join(names)]: every item must be a [str]. *)
Fixpoint strs_of (names : list json) : result (list str) :=
  match names with
  | [] => Ok []
  | JStr s :: rest => rbind (strs_of rest) (fun ss => Ok (s :: ss))
  | _ :: _ => Raise TypeError
  end.

Definition py_join (sep : str) (names : list json) : result str :=
  rbind (strs_of names) (fun ss => Ok (join sep ss)).

(** Lines 36-42: the loop over the authors list, [names] being the
    accumulator. *)
Fixpoint names_loop (l : list json) (names : list json) : list json :=
  match l with
  | [] => names
  | a :: rest =>
      match a with
      | JObj d =>
          let n := py_or (py_or (dict_get d (lit "name"))
                                (dict_get d (lit "fullName")))
                         (dict_get d (lit "displayName")) in
          if truthy n then names_loop rest (names ++ [n])
          else names_loop rest names
      | JStr _ => names_loop rest (names ++ [a])
      | _ => names_loop rest names
      end
  end.

(** Lines 33-47. *)
Definition authors_str (obj : dict) : result str :=
  let authors := py_or (dict_get obj (lit "authors")) (JArr []) in
  match authors with
  | JArr l => py_join (lit ", ") (names_loop l [])
  | JStr s => Ok s
  | _ => Ok []
  end.

(** Lines 49-53 and the [url or ""] of line 58. *)
Definition url_of (obj : dict) : json :=
  let url := py_or (py_or (dict_get obj (lit "url"))
                          (dict_get obj (lit "paperUrl")))
                   (dict_get obj (lit "arxivUrl")) in
  let url :=
    if negb (truthy url) then
      let pid := py_or (dict_get obj (lit "id")) (dict_get obj (lit "paperId")) in
      if truthy pid then JStr (lit "https://huggingface.co/papers/" ++ py_str pid)
      else url
    else url in
  py_or url (JStr []).

(** Lines 30-31: the object the fields are read from. *)
Definition entry_obj (it : json) : dict :=
  let paper := match it with JObj d => dict_get d (lit "paper") | _ => JNull end in
  match paper with
  | JObj p => p
  | _ => match it with JObj d => d | _ => [] end
  end.

(** Lines 30-59: one iteration of the loop over [items]. *)
Definition entry_record (it : json) : result paper :=
  let obj := entry_obj it in
  let title := py_or (py_or (dict_get obj (lit "title")) (dict_get obj (lit "name")))
                     (JStr []) in
  rbind (authors_str obj) (fun authors_str =>
  let abstract := py_or (py_or (py_or (dict_get obj (lit "abstract"))
                                      (dict_get obj (lit "summary")))
                               (dict_get obj (lit "description")))
                        (JStr []) in
  Ok {| title := title;
        authors := JStr authors_str;
        abstract := abstract;
        url := url_of obj |}).

(** Lines 28-60: the loop, [papers] being the accumulator. *)
Fixpoint papers_loop (items : list json) (papers : list paper)
  : result (list paper) :=
  match items with
  | [] => Ok papers
  | it :: rest =>
      rbind (entry_record it) (fun p => papers_loop rest (papers ++ [p]))
  end.

(** Lines 22-27: the sequence the loop runs over. *)
Definition items_of (data : json) : json :=
  match data with
  | JObj d =>
      if dict_has d (lit "items") then py_or (dict_get d (lit "items")) (JArr [])
      else JArr []
  | JArr _ => data
  | _ => JArr []
  end.

(** Lines 22-60 of [fetch_papers_for_date]: from the parsed payload to
    the paper list. *)
Definition normalize (data : json) : result (list paper) :=
  rbind (py_iter (items_of data)) (fun items => papers_loop items []).

End Normalizer.

(** ** The world outside the process *)

(** The calls made on [smtplib] objects. *)
Inductive smtp_cmd :=
| SmtpSSLConnect (host : str) (port : Z)
| SmtpConnect (host : str) (port : Z)
| SmtpEhlo
| SmtpStarttls
| SmtpLogin (user pass : str)
| SmtpSendmail (sender : str) (rcpts : list str) (msg : message)
| SmtpQuit.

(** What a run does on the network, in the order it does it. *)
Inductive event :=
| EvGet (url : str)
| EvSmtp (c : smtp_cmd).

Record World := {
  (** [requests.get(url, timeout=30)], [raise_for_status()], [r.json()]:
      the parsed body, or the failure raised on the way. *)
  upstream : str -> result json;
  (** [datetime.now(ZoneInfo(tz)).date()] as a proleptic Gregorian
      ordinal (day 1 is 0001-01-01). *)
  today_in : str -> result Z;
  (** [os.environ] *)
  environ : str -> option str;
  (** how the mail server answers a call: [None] when it succeeds. *)
  smtp_reply : smtp_cmd -> option exn
}.

(** ** Computations that log their network calls *)

Definition io (A : Type) : Type := (result A * list event)%type.

Definition ret {A} (a : A) : io A := (Ok a, []).

Definition raise {A} (e : exn) : io A := (Raise e, []).

Definition bind {A B} (m : io A) (f : A -> io B) : io B :=
  match m with
  | (Ok a, l) => let (r, l') := f a in (r, l ++ l')
  | (Raise e, l) => (Raise e, l)
  end.

Definition lift {A} (r : result A) : io A := (r, []).

(** [try: m except Exception: pass] *)
Definition try_pass (m : io unit) : io unit :=
  match m with
  | (Raise _, l) => (Ok tt, l)
  | ok => ok
  end.

Declare Scope io_scope.
Delimit Scope io_scope with io.
Notation "x <- m ;; k" := (bind m (fun x => k))
  (at level 61, m at next level, right associativity) : io_scope.
Notation "m ;;; k" := (bind m (fun _ => k))
  (at level 61, right associativity) : io_scope.

(** ** Calendar dates *)

Definition MINORDINAL : Z := 1.
Definition MAXORDINAL : Z := 3652059.
Definition MAX_DELTA_DAYS : Z := 999999999.

(** [d - timedelta(days=i)] on a [date] given by its ordinal. *)
Definition date_minus_days (d i : Z) : result Z :=
  if MAX_DELTA_DAYS <? Z.abs i then Raise OverflowError
  else if (d - i <? MINORDINAL) || (MAXORDINAL <? d - i) then Raise OverflowError
  else Ok (d - i).

(** [d.year, d.month, d.day] of an ordinal. *)
Definition ymd_of_ordinal (n : Z) : Z * Z * Z :=
  let z := n + 305 in
  let era := z / 146097 in
  let doe := z - era * 146097 in
  let yoe := (doe - doe / 1460 + doe / 36524 - doe / 146096) / 365 in
  let doy := doe - (365 * yoe + yoe / 4 - yoe / 100) in
  let mp := (5 * doy + 2) / 153 in
  let d := doy - (153 * mp + 2) / 5 + 1 in
  let m := if mp <? 10 then mp + 3 else mp - 9 in
  let y := yoe + era * 400 + (if m <=? 2 then 1 else 0) in
  (y, m, d).

(** The [%m] and [%d] directives: two digits. *)
Definition pad2 (z : Z) : str :=
  if z <? 10 then lit "0" ++ int_str z else int_str z.

Section Fetcher.
Variable rt : Runtime.
Variable W : World.

Local Open Scope io_scope.

(** Lines 14-15 applied to [datetime(d.year, d.month, d.day)]:
    [strftime("%Y-%m-%d")]. *)
Definition _date_str (d : Z) : str :=
  let '(y, m, dd) := ymd_of_ordinal d in
  strftime_Y rt y ++ lit "-" ++ pad2 m ++ lit "-" ++ pad2 dd.

(** Line 18. *)
Definition fetch_url (date_str : str) : str :=
  HF_API_URL ++ lit "?date=" ++ date_str.

(** Lines 19-21: one GET, logged whether or not it succeeds. *)
Definition http_get_json (url : str) : io json :=
  (upstream W url, [EvGet url]).

(** Lines 17-60. *)
Definition fetch_papers_for_date (date_str : str) : io (list paper) :=
  data <- http_get_json (fetch_url date_str) ;;
  lift (normalize rt data).

(** Lines 65-70: the [for] loop, with [i] the loop variable and [n]
    the number of iterations left; [None] when the range is exhausted. *)
Fixpoint fallback_loop (today i : Z) (n : nat) : io (option (str * list paper)) :=
  match n with
  | O => ret None
  | S n' =>
      d <- lift (date_minus_days today i) ;;
      let ds := _date_str d in
      papers <- fetch_papers_for_date ds ;;
      match papers with
      | _ :: _ => ret (Some (ds, papers))
      | [] => fallback_loop today (i + 1) n'
      end
  end.

(** Lines 62-71. [range(0, max_days_back + 1)] has
    [max(0, max_days_back + 1)] elements. *)
Definition get_daily_papers_with_fallback (tz_name : str) (max_days_back : Z)
  : io (str * list paper) :=
  today <- lift (today_in W tz_name) ;;
  found <- fallback_loop today 0 (Z.to_nat (max_days_back + 1)) ;;
  match found with
  | Some r => ret r
  | None => ret (_date_str today, [])
  end.

End Fetcher.

(** ** Literals outside ASCII *)

(** The double quote. *)
Definition dq : str := [34%N].
(** The line feed. *)
Definition LF : N := 10%N.

(** 暂无可用的 *)
Definition zh_none_available : str := [26242; 26080; 21487; 29992; 30340]%N.
(** 。 *)
Definition zh_stop : str := [12290%N].
(** 作者 *)
Definition zh_authors : str := [20316; 32773]%N.
(** 摘要 *)
Definition zh_abstract : str := [25688; 35201]%N.
(** 链接 *)
Definition zh_link : str := [38142; 25509]%N.
(** 如需调整推送时间或筛选规则，请联系维护者。 *)
Definition zh_footer : str :=
  [22914; 38656; 35843; 25972; 25512; 36865; 26102; 38388; 25110; 31579; 36873;
   35268; 21017; 65292; 35831; 32852; 31995; 32500; 25252; 32773; 12290]%N.
(** 邮件发送配置不完整 *)
Definition zh_config_incomplete : str :=
  [37038; 20214; 21457; 36865; 37197; 32622; 19981; 23436; 25972]%N.

(** [f"{date_str} 暂无可用的 Daily Papers。"] *)
Definition no_papers_line (date_str : str) : str :=
  date_str ++ lit " " ++ zh_none_available ++ lit " Daily Papers" ++ zh_stop.

(** [f"Hugging Face Daily Papers - {date_str}"] *)
Definition header_line (date_str : str) : str :=
  lit "Hugging Face Daily Papers - " ++ date_str.

Definition authors_prefix : str := lit "  " ++ zh_authors ++ lit ": ".
Definition abstract_prefix : str := lit "  " ++ zh_abstract ++ lit ": ".
Definition link_prefix : str := lit "  " ++ zh_link ++ lit ": ".
Definition title_prefix : str := lit "- ".

(** The fixed pieces of a card (line 97). *)
Definition card_open : str := lit "<div class=" ++ dq ++ lit "card" ++ dq ++ lit ">".
Definition meta_open : str := lit "<div class=" ++ dq ++ lit "meta" ++ dq ++ lit ">".
Definition abstract_open : str :=
  lit "</div><div class=" ++ dq ++ lit "abstract" ++ dq ++ lit ">".
Definition card_close : str := lit "</div></div>".

Section Renderer.
Variable rt : Runtime.

(** [p.get(k) or ""] followed by interpolation into an f-string. *)
Definition shown (v : json) : str := py_str rt (py_or v (JStr [])).

(** Lines 74-88. *)
Definition css : str :=
  lit "body{font-family:-apple-system,BlinkMacSystemFont,Segoe UI,Roboto,Helvetica,Arial,sans-serif;margin:0;padding:0;background:#f6f8fa;color:#24292e;}"
  ++ lit ".container{max-width:820px;margin:0 auto;padding:24px;}"
  ++ lit ".header{display:flex;align-items:center;gap:12px;margin-bottom:16px;}"
  ++ lit ".badge{background:#2f81f7;color:#fff;font-weight:600;border-radius:999px;padding:4px 10px;font-size:12px;}"
  ++ lit ".title{margin:0;font-size:22px;line-height:1.3;}"
  ++ lit ".subtitle{margin:4px 0 0 0;color:#57606a;font-size:13px;}"
  ++ lit ".card{background:#fff;border:1px solid #d0d7de;border-radius:10px;padding:16px;margin:12px 0;box-shadow:0 1px 0 rgba(27,31,36,.04);}"
  ++ lit ".paper-title{margin:0 0 8px;font-size:16px;color:#0969da;text-decoration:none;}"
  ++ lit ".paper-title:hover{text-decoration:underline;}"
  ++ lit ".meta{color:#57606a;font-size:13px;margin-bottom:8px;}"
  ++ lit ".abstract{font-size:14px;line-height:1.55;color:#24292e;}"
  ++ lit ".footer{margin-top:24px;color:#57606a;font-size:12px;}"
  ++ lit ".empty{background:#fff; border:1px dashed #d0d7de; border-radius:10px; padding:20px; text-align:center; color:#57606a;}".

(** Line 95. *)
Definition title_html (p : paper) : str :=
  let link := py_or (url p) (JStr []) in
  if truthy link then
    lit "<a class=" ++ dq ++ lit "paper-title" ++ dq ++ lit " href=" ++ dq
    ++ py_str rt link ++ dq ++ lit " target=" ++ dq ++ lit "_blank" ++ dq
    ++ lit ">" ++ shown (title p) ++ lit "</a>"
  else
    lit "<div class=" ++ dq ++ lit "paper-title" ++ dq ++ lit ">"
    ++ shown (title p) ++ lit "</div>".

(** Lines 91-98: the card appended for one paper. *)
Definition card (p : paper) : str :=
  card_open ++ title_html p ++ meta_open ++ shown (authors p)
  ++ abstract_open ++ shown (abstract p) ++ card_close.

(** Lines 89-98: the loop, [parts] being the accumulator. *)
Fixpoint parts_loop (papers : list paper) (parts : list str) : list str :=
  match papers with
  | [] => parts
  | p :: rest => parts_loop rest (parts ++ [card p])
  end.

(** Lines 99-101. *)
Definition html_body (date_str : str) (parts : list str) : str :=
  match parts with
  | [] => lit "<div class=" ++ dq ++ lit "empty" ++ dq ++ lit ">"
          ++ no_papers_line date_str ++ lit "</div>"
  | _ :: _ => join [] parts
  end.

(** Lines 103-108: the document up to the [{body}] field. *)
Definition html_before_body (date_str : str) : str :=
  lit "<html><head><meta charset=" ++ dq ++ lit "utf-8" ++ dq
  ++ lit "><meta name=" ++ dq ++ lit "viewport" ++ dq ++ lit " content=" ++ dq
  ++ lit "width=device-width,initial-scale=1" ++ dq ++ lit ">"
  ++ lit "<style>" ++ css ++ lit "</style></head>"
  ++ lit "<body>"
  ++ lit "<div class=" ++ dq ++ lit "container" ++ dq ++ lit ">"
  ++ lit "<div class=" ++ dq ++ lit "header" ++ dq ++ lit "><span class=" ++ dq
  ++ lit "badge" ++ dq ++ lit ">Daily</span><h1 class=" ++ dq ++ lit "title" ++ dq
  ++ lit ">" ++ header_line date_str ++ lit "</h1></div>"
  ++ lit "<div class=" ++ dq ++ lit "content" ++ dq ++ lit ">".

(** Lines 108-111: the document after the [{body}] field. *)
Definition html_after_body : str :=
  lit "</div>"
  ++ lit "<div class=" ++ dq ++ lit "footer" ++ dq ++ lit ">" ++ zh_footer ++ lit "</div>"
  ++ lit "</div>"
  ++ lit "</body></html>".

(** Lines 73-113. *)
Definition build_email_html (date_str : str) (papers : list paper) : str :=
  let parts := parts_loop papers [] in
  html_before_body date_str ++ html_body date_str parts ++ html_after_body.

(** Lines 121-131: the lines appended for one paper. *)
Definition paper_lines (p : paper) : list str :=
  let title := py_or (title p) (JStr []) in
  let authors := py_or (authors p) (JStr []) in
  let abstract := py_or (abstract p) (JStr []) in
  let url := py_or (url p) (JStr []) in
  [title_prefix ++ py_str rt title]
  ++ (if truthy authors then [authors_prefix ++ py_str rt authors] else [])
  ++ (if truthy abstract then [abstract_prefix ++ py_str rt abstract] else [])
  ++ (if truthy url then [link_prefix ++ py_str rt url] else []).

(** Lines 120-131: the loop, [lines] being the accumulator. *)
Fixpoint lines_loop (papers : list paper) (lines : list str) : list str :=
  match papers with
  | [] => lines
  | p :: rest => lines_loop rest (lines ++ paper_lines p)
  end.

(** Lines 115-132. *)
Definition build_email_text (date_str : str) (papers : list paper) : str :=
  let lines := [header_line date_str] in
  let lines :=
    match papers with
    | [] => lines ++ [no_papers_line date_str]
    | _ :: _ => lines_loop papers lines
    end in
  join [LF] lines.

End Renderer.

(** ** String methods used by the dispatcher *)

(** [c.isspace()] *)
Definition is_space (c : N) : bool :=
  ((9 <=? c) && (c <=? 13) || (28 <=? c) && (c <=? 32)
   || (c =? 133) || (c =? 160) || (c =? 5760)
   || (8192 <=? c) && (c <=? 8202)
   || (c =? 8232) || (c =? 8233) || (c =? 8239) || (c =? 8287)
   || (c =? 12288))%N.

Fixpoint lstrip (s : str) : str :=
  match s with
  | c :: s' => if is_space c then lstrip s' else s
  | [] => []
  end.

(** [s.strip()] *)
Definition strip (s : str) : str := rev (lstrip (rev (lstrip s))).

(** [s.replace(a, b)] for one-character [a] and [b]. *)
Definition replace_char (a b : N) (s : str) : str :=
  map (fun c => if N.eqb c a then b else c) s.

(** [s.split(sep)] for a one-character separator. *)
Fixpoint split_on (sep : N) (s : str) : list str :=
  match s with
  | [] => [[]]
  | c :: s' =>
      if N.eqb c sep then [] :: split_on sep s'
      else match split_on sep s' with
           | w :: ws => (c :: w) :: ws
           | [] => [[c]]
           end
  end.

(** A surrogate code point: what [s.encode("utf-8")] refuses. *)
Definition is_surrogate (c : N) : bool := ((55296 <=? c) && (c <=? 57343))%N.

Definition utf8_encodable (s : str) : bool := negb (existsb is_surrogate s).

(** [MIMEText(body, subtype, "utf-8")] (lines 148-149): the part, or
    the [UnicodeEncodeError] of encoding the body. *)
Definition mime_text (subtype body : str) : result (str * str) :=
  if utf8_encodable body then Ok (subtype, body) else Raise UnicodeEncodeError.

Definition nonempty (s : str) : bool :=
  match s with [] => false | _ :: _ => true end.

(** Line 141. *)
Definition parse_recipients (mail_to_raw : str) : list str :=
  map strip
    (filter (fun x => nonempty (strip x))
       (split_on 44%N (replace_char 59%N 44%N mail_to_raw))).

Section Dispatcher.
Variable rt : Runtime.
Variable W : World.

Local Open Scope io_scope.

(** [os.getenv(k, default)] *)
Definition getenv (k default : str) : str :=
  match environ W k with
  | Some v => v
  | None => default
  end.

(** Line 136: [int(os.getenv("SMTP_PORT", "0") or 0)]. *)
Definition read_port : result Z :=
  match getenv (lit "SMTP_PORT") (lit "0") with
  | [] => Ok 0
  | s => match py_int rt s with
         | Some z => Ok z
         | None => Raise ValueError
         end
  end.

(** The argument [msg.as_string()] of [sendmail] (lines 157, 167),
    evaluated before the call. *)
Definition as_string (msg : message) : result unit :=
  match as_string_error rt msg with
  | None => Ok tt
  | Some e => Raise e
  end.

(** One call on the server object, logged whether or not it succeeds. *)
Definition smtp_call (c : smtp_cmd) : io unit :=
  (match smtp_reply W c with None => Ok tt | Some e => Raise e end, [EvSmtp c]).

(** [with <connect> as server: body]: the constructor opens the
    connection; leaving the block sends QUIT, whatever the body did. *)
Definition with_server (connect : smtp_cmd) (body : io unit) : io unit :=
  smtp_call connect ;;;
  match body, smtp_call SmtpQuit with
  | (r, l), (Ok _, l') => (r, l ++ l')
  | (_, l), (Raise e, l') => (Raise e, l ++ l')
  end.

(** Lines 134-167. *)
Definition send_email (subject html_body text_body : str) : io unit :=
  let smtp_host := getenv (lit "SMTP_HOST") [] in
  smtp_port <- lift read_port ;;
  let smtp_user := getenv (lit "SMTP_USERNAME") [] in
  let smtp_pass := getenv (lit "SMTP_PASSWORD") [] in
  let mail_from :=
    match environ W (lit "MAIL_FROM") with
    | Some (c :: v) => c :: v
    | _ => smtp_user
    end in
  let mail_to_raw := getenv (lit "MAIL_TO") [] in
  let recipients := parse_recipients mail_to_raw in
  if negb (nonempty smtp_host) || (smtp_port =? 0) || negb (nonempty smtp_user)
     || negb (nonempty smtp_pass)
     || match recipients with [] => true | _ :: _ => false end
  then raise (RuntimeError zh_config_incomplete)
  else
    part1 <- lift (mime_text (lit "plain") text_body) ;;
    part2 <- lift (mime_text (lit "html") html_body) ;;
    let msg := {| msg_subject := subject;
                  msg_from := mail_from;
                  msg_to := join (lit ", ") recipients;
                  msg_parts := [part1; part2] |} in
    if smtp_port =? 465 then
      with_server (SmtpSSLConnect smtp_host smtp_port)
        (smtp_call (SmtpLogin smtp_user smtp_pass) ;;;
         lift (as_string msg) ;;;
         smtp_call (SmtpSendmail mail_from recipients msg))
    else
      with_server (SmtpConnect smtp_host smtp_port)
        (smtp_call SmtpEhlo ;;;
         try_pass (smtp_call SmtpStarttls ;;; smtp_call SmtpEhlo) ;;;
         smtp_call (SmtpLogin smtp_user smtp_pass) ;;;
         lift (as_string msg) ;;;
         smtp_call (SmtpSendmail mail_from recipients msg)).

End Dispatcher.

(** ** A runtime and worlds to run the model on examples *)

Module Stub.

Fixpoint digits_value (s : str) (acc : Z) : option Z :=
  match s with
  | [] => Some acc
  | c :: s' =>
      if ((48 <=? c) && (c <=? 57))%N
      then digits_value s' (10 * acc + (Z.of_N c - 48))
      else None
  end.

(** [int(s)] on plain decimal literals: optional surrounding white
    space, optional sign, ASCII digits. *)
Definition int_decimal (s : str) : option Z :=
  match strip s with
  | [] => None
  | 45%N :: (_ :: _) as ds => option_map Z.opp (digits_value ds 0)
  | 43%N :: (_ :: _) as ds => digits_value ds 0
  | 45%N :: [] | 43%N :: [] => None
  | ds => digits_value ds 0
  end.

(** Years written with at least four digits. *)
Definition year4 (y : Z) : str :=
  if y <? 10 then lit "000" ++ int_str y
  else if y <? 100 then lit "00" ++ int_str y
  else if y <? 1000 then lit "0" ++ int_str y
  else int_str y.

(** [repr] of a string free of quotes, backslashes and control
    characters. *)
Definition quote_repr (s : str) : str := lit "'" ++ s ++ lit "'".

(** A generator that refuses a header holding a line feed. *)
Definition header_check (m : message) : option exn :=
  if existsb (N.eqb LF) (msg_subject m ++ msg_from m ++ msg_to m)
  then Some MessageError else None.

(** The examples carry no float, so one text stands for them all. *)
Definition rt : Runtime :=
  {| py_int := int_decimal;
     float_repr := fun _ => lit "nan";
     str_repr := quote_repr;
     strftime_Y := year4;
     as_string_error := header_check |}.

(** Lookup in an association list keyed by strings. *)
Fixpoint assoc {A} (l : list (str * A)) (k : str) : option A :=
  match l with
  | [] => None
  | (k', v) :: l' => if str_eqb k' k then Some v else assoc l' k
  end.

(** A world given by: the replies of the API per URL (any other URL
    answers 404), today's ordinal, the environment, and a mail
    server that accepts everything. *)
Definition world (replies : list (str * result json)) (today : Z)
    (env : list (str * str)) : World :=
  {| upstream := fun u =>
       match assoc replies u with
       | Some r => r
       | None => Raise (RequestException (HTTPStatus 404))
       end;
     today_in := fun _ => Ok today;
     environ := assoc env;
     smtp_reply := fun _ => None |}.

End Stub.

(** ** Vocabulary of the specification *)

(** The payload shapes the specification calls accepted: an object with
    an [items] key bound to a sequence, or a bare sequence. *)
Definition accepted_shape (data : json) : bool :=
  match data with
  | JArr _ => true
  | JObj d =>
      dict_has d (lit "items")
      && match dict_get d (lit "items") with JArr _ => true | _ => false end
  | _ => false
  end.

(** The payloads the code takes entries from: a bare sequence, or an
    object whose [items] key is bound to a truthy value. *)
Definition carries_items (data : json) : bool :=
  match data with
  | JArr _ => true
  | JObj d => dict_has d (lit "items") && truthy (dict_get d (lit "items"))
  | _ => false
  end.

(** A field that holds a string, or else a truthy value: never [None],
    nor any other falsy value. *)
Definition field_set (v : json) : bool := is_str v || truthy v.

(** An upstream value that is text or missing. *)
Definition text_or_none (v : json) : bool :=
  match v with
  | JStr _ | JNull => true
  | _ => false
  end.

(** The keys the title, abstract and url of a record are read from. *)
Definition text_keys : list str :=
  [lit "title"; lit "name"; lit "abstract"; lit "summary"; lit "description";
   lit "url"; lit "paperUrl"; lit "arxivUrl"].

(** An entry whose paper object binds those keys to text only. *)
Definition text_entry (it : json) : Prop :=
  forall k, In k text_keys -> text_or_none (dict_get (entry_obj it) k) = true.

Definition all_str (p : paper) : bool :=
  is_str (title p) && is_str (authors p) && is_str (abstract p) && is_str (url p).

(** The first truthy value of a chain [a or b or ...], if there is one. *)
Fixpoint first_truthy (vs : list json) : option json :=
  match vs with
  | [] => None
  | v :: rest => if truthy v then Some v else first_truthy rest
  end.

(** A field read through fallback keys: the first truthy value bound to
    one of them, unchanged; the empty string when every key is missing
    or bound to a falsy value. *)
Definition value_or_empty (obj : dict) (keys : list str) : json :=
  match first_truthy (map (dict_get obj) keys) with
  | Some v => v
  | None => JStr []
  end.

(** The link of a record: the first truthy value among the link keys,
    unchanged; failing that the link synthesized from the first truthy
    id; failing that the empty string. *)
Definition link_or_empty (rt : Runtime) (obj : dict) : json :=
  match first_truthy (map (dict_get obj) [lit "url"; lit "paperUrl"; lit "arxivUrl"]) with
  | Some v => v
  | None =>
      match first_truthy (map (dict_get obj) [lit "id"; lit "paperId"]) with
      | Some pid => JStr (lit "https://huggingface.co/papers/" ++ py_str rt pid)
      | None => JStr []
      end
  end.

(** What the record of an entry holds, field by field. *)
Definition record_of_entry (rt : Runtime) (it : json) (p : paper) : Prop :=
  title p = value_or_empty (entry_obj it) [lit "title"; lit "name"]
  /\ is_str (authors p) = true
  /\ abstract p
     = value_or_empty (entry_obj it) [lit "abstract"; lit "summary"; lit "description"]
  /\ url p = link_or_empty rt (entry_obj it).

(** The raw authors value of an entry. *)
Definition raw_authors (it : json) : json :=
  dict_get (entry_obj it) (lit "authors").

(** A name field of a name object: its text when it is a non-empty
    string. *)
Definition name_field (d : dict) (k : str) : option str :=
  match dict_get d k with
  | JStr (c :: s) => Some (c :: s)
  | _ => None
  end.

(** The display name of one element of an authors sequence, in the
    specification's words: for an object [name], then [fullName], then
    [displayName]; for a plain string the string itself; nothing
    otherwise. *)
Definition display_name (a : json) : option str :=
  match a with
  | JStr s => Some s
  | JObj d =>
      match name_field d (lit "name") with
      | Some n => Some n
      | None =>
          match name_field d (lit "fullName") with
          | Some n => Some n
          | None => name_field d (lit "displayName")
          end
      end
  | _ => None
  end.

(** The names of a sequence, in input order, nameless elements dropped. *)
Fixpoint display_names (l : list json) : list str :=
  match l with
  | [] => []
  | a :: rest =>
      match display_name a with
      | Some n => n :: display_names rest
      | None => display_names rest
      end
  end.

(** The authors text the specification assigns to a raw value. *)
Definition spec_authors (raw : json) : str :=
  match raw with
  | JArr l => join (lit ", ") (display_names l)
  | JStr s => s
  | _ => []
  end.

(** A value that is text, or else falsy ([None], missing, [false],
    zero, empty). *)
Definition text_or_falsy (v : json) : bool := is_str v || negb (truthy v).

(** The value line 38 resolves for an object: the first truthy one
    among [name], [fullName] and [displayName]. *)
Definition resolved_name (d : dict) : json :=
  py_or (py_or (dict_get d (lit "name")) (dict_get d (lit "fullName")))
        (dict_get d (lit "displayName")).

(** A name object: an object that resolves to text or to nothing. *)
Definition name_object (d : dict) : bool := text_or_falsy (resolved_name d).

(** A raw authors value whose objects, when it is a sequence, are name
    objects. *)
Definition authors_well_formed (raw : json) : bool :=
  match raw with
  | JArr l => forallb (fun a => match a with JObj d => name_object d | _ => true end) l
  | _ => true
  end.

(** [i, i+1, ..., i+n-1] *)
Fixpoint zrange (i : Z) (n : nat) : list Z :=
  match n with
  | O => []
  | S n' => i :: zrange (i + 1) n'
  end.

Section FallbackVocabulary.
Variable rt : Runtime.
Variable W : World.

(** What fetching and normalizing the candidate [today - j] gives. *)
Definition day_papers (today j : Z) : result (list paper) :=
  rbind (date_minus_days today j)
        (fun d => fst (fetch_papers_for_date rt W (_date_str rt d))).

(** The date string of the candidate [today - j]. *)
Definition day_str (today j : Z) : str := _date_str rt (today - j).

(** The fetch call for the candidate [today - j]. *)
Definition day_get (today j : Z) : event := EvGet (fetch_url (day_str today j)).

(** The fetch calls for the candidates [today], ..., [today - k]. *)
Definition fetch_log (today k : Z) : list event :=
  map (day_get today) (zrange 0 (Z.to_nat (k + 1))).
End FallbackVocabulary.

(** The title element of a card, for a link target [u] and a shown
    title [t]: a plain block when [u] is empty, otherwise an anchor on
    exactly [u]. *)
Definition title_element (u t : str) : str :=
  match u with
  | [] => lit "<div class=" ++ dq ++ lit "paper-title" ++ dq ++ lit ">" ++ t ++ lit "</div>"
  | _ :: _ =>
      lit "<a class=" ++ dq ++ lit "paper-title" ++ dq ++ lit " href=" ++ dq ++ u ++ dq
      ++ lit " target=" ++ dq ++ lit "_blank" ++ dq ++ lit ">" ++ t ++ lit "</a>"
  end.

(** *** Reading the plain-text digest back *)

Definition has_LF (s : str) : bool := existsb (N.eqb LF) s.

(** A field that is a string with no line feed. *)
Definition plain_field (v : json) : bool :=
  match v with
  | JStr s => negb (has_LF s)
  | _ => false
  end.

Definition plain_paper (p : paper) : bool :=
  plain_field (title p) && plain_field (authors p)
  && plain_field (abstract p) && plain_field (url p).

(** A date string with no line feed that does not open with a dash. *)
Definition plain_date (d : str) : bool :=
  negb (has_LF d) && match d with c :: _ => negb (N.eqb c 45) | [] => true end.

(** The line of an optional field: none when the field is empty. *)
Definition field_line (prefix s : str) : list str :=
  match s with
  | [] => []
  | _ :: _ => [prefix ++ s]
  end.

(** Modelled from the spec: the re-parser of the plain-text form, which
    the repository does not contain. One line at a time, [acc] holding
    the papers read so far, latest first: a line opening with "- "
    starts a paper; an indented authors, abstract or link line fills
    the field of the latest paper; any other line is skipped. *)
Definition parse_line (acc : list paper) (line : str) : list paper :=
  match strip_prefix title_prefix line with
  | Some t =>
      {| title := JStr t; authors := JStr []; abstract := JStr []; url := JStr [] |}
      :: acc
  | None =>
      match acc with
      | [] => []
      | p :: rest =>
          match strip_prefix authors_prefix line with
          | Some a =>
              {| title := title p; authors := JStr a;
                 abstract := abstract p; url := url p |} :: rest
          | None =>
              match strip_prefix abstract_prefix line with
              | Some a =>
                  {| title := title p; authors := authors p;
                     abstract := JStr a; url := url p |} :: rest
              | None =>
                  match strip_prefix link_prefix line with
                  | Some u =>
                      {| title := title p; authors := authors p;
                         abstract := abstract p; url := JStr u |} :: rest
                  | None => acc
                  end
              end
          end
      end
  end.

(** Modelled from the spec: the re-parser applied to a whole digest;
    the first line is the header. *)
Definition parse_text (text : str) : list paper :=
  rev (fold_left parse_line (tl (split_on LF text)) []).

(** *** Mail settings *)

Section ConfigVocabulary.
Variable W : World.

Definition unset_or_empty (k : str) : bool :=
  match environ W k with
  | None | Some [] => true
  | Some (_ :: _) => false
  end.

(** Host, port, username, password or the parsed recipient list is
    empty or unset. *)
Definition config_incomplete : bool :=
  unset_or_empty (lit "SMTP_HOST") || unset_or_empty (lit "SMTP_PORT")
  || unset_or_empty (lit "SMTP_USERNAME") || unset_or_empty (lit "SMTP_PASSWORD")
  || match parse_recipients (getenv W (lit "MAIL_TO") []) with
     | [] => true
     | _ :: _ => false
     end.
End ConfigVocabulary.

(** ** Example inputs *)

Module Examples.

(** An entry wrapped under [paper] with a mixed authors list: a plain
    string, an object named through [fullName], a number, a nameless
    object, an object named through [displayName], an object whose
    [name] is text and whose [fullName] is a number. *)
Definition mixed_authors_entry : json :=
  JObj [(lit "paper",
         JObj [(lit "title", JStr (lit "T"));
               (lit "authors",
                JArr [JStr (lit "Ada");
                      JObj [(lit "name", JStr []); (lit "fullName", JStr (lit "Bob"))];
                      JInt 3;
                      JObj [(lit "id", JInt 7)];
                      JObj [(lit "displayName", JStr (lit "Cy"))];
                      JObj [(lit "name", JStr (lit "Dee")); (lit "fullName", JInt 5)]])])].

(** An entry whose authors mix a plain string and an object named by
    a number. *)
Definition numbered_name_entry : json :=
  JObj [(lit "title", JStr (lit "T"));
        (lit "authors", JArr [JStr (lit "Ada"); JObj [(lit "name", JInt 5)]])].

(** A payload of two entries whose keys hold text only, and its
    records. *)
Definition text_payload : json :=
  JArr [JObj [(lit "title", JStr (lit "T")); (lit "id", JStr (lit "2611.7"))];
        JObj [(lit "paper",
               JObj [(lit "name", JStr (lit "N")); (lit "summary", JNull);
                     (lit "description", JStr (lit "D"));
                     (lit "arxivUrl", JStr (lit "http://x"))])]].
Definition text_records : list paper :=
  [{| title := JStr (lit "T"); authors := JStr []; abstract := JStr [];
      url := JStr (lit "https://huggingface.co/papers/2611.7") |};
   {| title := JStr (lit "N"); authors := JStr []; abstract := JStr (lit "D");
      url := JStr (lit "http://x") |}].

(** 2026-11-03 *)
Definition today : Z := 739923.

Definition tz : str := lit "Asia/Shanghai".

Definition one_paper : json :=
  JArr [JObj [(lit "title", JStr (lit "T")); (lit "id", JStr (lit "2611.00001"))]].

Definition the_paper : paper :=
  {| title := JStr (lit "T"); authors := JStr []; abstract := JStr [];
     url := JStr (lit "https://huggingface.co/papers/2611.00001") |}.

(** Only the day 3 days ago has papers. *)
Definition world_third_day : World :=
  Stub.world
    [(fetch_url (lit "2026-11-03"), Ok (JArr []));
     (fetch_url (lit "2026-11-02"), Ok (JObj []));
     (fetch_url (lit "2026-11-01"), Ok JNull);
     (fetch_url (lit "2026-10-31"), Ok one_paper)]
    today [].

(** No day of the range has papers. *)
Definition world_all_empty : World :=
  Stub.world
    [(fetch_url (lit "2026-11-03"), Ok (JArr []));
     (fetch_url (lit "2026-11-02"), Ok (JArr []));
     (fetch_url (lit "2026-11-01"), Ok (JArr []));
     (fetch_url (lit "2026-10-31"), Ok (JArr []))]
    today [].

(** Today is empty, yesterday's request times out, the day before
    has papers. *)
Definition world_timeout : World :=
  Stub.world
    [(fetch_url (lit "2026-11-03"), Ok (JArr []));
     (fetch_url (lit "2026-11-02"), Raise (RequestException ReadTimeout));
     (fetch_url (lit "2026-11-01"), Ok one_paper)]
    today [].

Definition unlinked_paper : paper :=
  {| title := JStr (lit "T"); authors := JStr (lit "Ada"); abstract := JStr [];
     url := JStr [] |}.

Definition date : str := lit "2026-11-03".

(** Everything set but the recipients. *)
Definition env_no_recipients : list (str * str) :=
  [(lit "SMTP_HOST", lit "smtp.example.org"); (lit "SMTP_PORT", lit "587");
   (lit "SMTP_USERNAME", lit "digest"); (lit "SMTP_PASSWORD", lit "secret");
   (lit "MAIL_TO", lit " ; , ")].

(** The same with a port that is not a number. *)
Definition env_bad_port : list (str * str) :=
  [(lit "SMTP_HOST", lit "smtp.example.org"); (lit "SMTP_PORT", lit "tls");
   (lit "SMTP_USERNAME", lit "digest"); (lit "SMTP_PASSWORD", lit "secret");
   (lit "MAIL_TO", lit " ; , ")].

(** 作者 *)
Definition title_with_authors_line : str :=
  lit "x" ++ [LF] ++ authors_prefix ++ lit "y".

(** Two paper lists with the same plain-text form. *)
Definition folded : list paper :=
  [{| title := JStr title_with_authors_line; authors := JStr [];
      abstract := JStr []; url := JStr [] |}].
Definition unfolded : list paper :=
  [{| title := JStr (lit "x"); authors := JStr (lit "y");
      abstract := JStr []; url := JStr [] |}].

(** A date that is a single dash, and the title it is mistaken for. *)
Definition dash_date : str := lit "-".
Definition placeholder_title : list paper :=
[{| title := JStr (zh_none_available ++ lit " Daily Papers" ++ zh_stop);
    authors := JStr []; abstract := JStr []; url := JStr [] |}].

(** Two dates of several lines whose digests coincide. *)
Definition two_line_date : str := lit "x" ++ [LF] ++ lit "- y".
Definition three_line_date : str := lit "x" ++ [LF] ++ lit "- y" ++ [LF] ++ lit "x".
Definition placeholder_tail : list paper :=
[{| title := JStr (lit "y " ++ zh_none_available ++ lit " Daily Papers" ++ zh_stop);
    authors := JStr []; abstract := JStr []; url := JStr [] |}].

(** Every mail setting present. *)
Definition env_complete : list (str * str) :=
[(lit "SMTP_HOST", lit "smtp.example.org"); (lit "SMTP_PORT", lit "587");
 (lit "SMTP_USERNAME", lit "digest"); (lit "SMTP_PASSWORD", lit "secret");
 (lit "MAIL_TO", lit "ada@example.org; bob@example.org")].

End Examples.

(** ** The entry point *)

(** 服务启动测试 *)
Definition zh_selftest : str := [26381; 21153; 21551; 21160; 27979; 35797]%N.
(** 时间： *)
Definition zh_time : str := [26102; 38388; 65306]%N.
(** 邮件发送链路验证成功。 *)
Definition zh_chain_ok : str :=
  [37038; 20214; 21457; 36865; 38142; 36335; 39564; 35777; 25104; 21151; 12290]%N.

(** The namespace [parse_args] returns (lines 170-176). *)
Record Args := {
  arg_date : str;
  arg_timezone : str;
  arg_max_days_back : Z;
  arg_subject_prefix : str;
  arg_test : bool
}.

(** Lines 182-186: the body of the self-test mail. *)
Definition selftest_html (date_str : str) : str :=
  lit "<html><body><div style=" ++ dq
  ++ lit "font-family:Arial,Helvetica,sans-serif;max-width:680px;margin:0 auto;" ++ dq
  ++ lit ">"
  ++ lit "<h2 style=" ++ dq ++ lit "color:#0969da" ++ dq ++ lit ">" ++ zh_selftest
  ++ lit "</h2><p>" ++ zh_time ++ date_str ++ lit "</p><p>" ++ zh_chain_ok ++ lit "</p>"
  ++ lit "</div></body></html>".

(** Line 187. *)
Definition selftest_text (date_str : str) : str :=
  zh_selftest ++ [LF] ++ zh_time ++ date_str ++ [LF] ++ zh_chain_ok.

Section Main.
Variable rt : Runtime.
Variable W : World.
(** [datetime.now(ZoneInfo(tz)).strftime("%Y-%m-%d %H:%M:%S %Z")] *)
Variable stamp_in : str -> result str.

Local Open Scope io_scope.

(** Lines 191-196: the date and the papers of the digest. *)
Definition digest_input (a : Args) : io (str * list paper) :=
  match arg_date a with
  | _ :: _ =>
      papers <- fetch_papers_for_date rt W (arg_date a) ;;
      ret (arg_date a, papers)
  | [] => get_daily_papers_with_fallback rt W (arg_timezone a) (arg_max_days_back a)
  end.

(** Lines 177-201: [main] once the arguments are parsed. *)
Definition main (a : Args) : io unit :=
  if arg_test a then
    date_str <- lift (stamp_in (arg_timezone a)) ;;
    let subject :=
      strip (arg_subject_prefix a ++ zh_selftest ++ lit " - " ++ date_str) in
    send_email rt W subject (selftest_html date_str) (selftest_text date_str)
  else
    dp <- digest_input a ;;
    let subject := strip (arg_subject_prefix a ++ header_line (fst dp)) in
    send_email rt W subject (build_email_html rt (fst dp) (snd dp))
      (build_email_text rt (fst dp) (snd dp)).

(** Lines 203-208: the exit status of the process. *)
Definition exit_status (a : Args) : Z :=
  match fst (main a) with
  | Ok _ => 0
  | Raise _ => 1
  end.

End Main.

(** ** Vocabulary of the further properties *)

(** The record of an entry that carries nothing. *)
Definition empty_paper : paper :=
  {| title := JStr []; authors := JStr []; abstract := JStr []; url := JStr [] |}.

Definition is_object (v : json) : bool :=
  match v with JObj _ => true | _ => false end.

(** The paper object of an entry, when it is wrapped under [paper]. *)
Definition wrapped_paper (it : json) : option dict :=
  match it with
  | JObj d => match dict_get d (lit "paper") with JObj p => Some p | _ => None end
  | _ => None
  end.

Definition PAPER_URL_PREFIX : str := lit "https://huggingface.co/papers/".

Definition is_get (e : event) : bool :=
  match e with EvGet _ => true | EvSmtp _ => false end.

Definition is_smtp (e : event) : bool :=
  match e with EvSmtp _ => true | EvGet _ => false end.

Definition is_sendmail (e : event) : bool :=
  match e with EvSmtp (SmtpSendmail _ _ _) => true | _ => false end.

(** The lines of one paper whose fields are strings: the title line,
    then a line for each non-empty field among authors, abstract and
    link, in that order. *)
Definition text_block (t a b u : str) : list str :=
  (title_prefix ++ t) :: field_line authors_prefix a
  ++ field_line abstract_prefix b ++ field_line link_prefix u.

(** A record of four strings. *)
Definition str_paper (f : str * str * str * str) : paper :=
  let '(t, a, b, u) := f in
  {| title := JStr t; authors := JStr a; abstract := JStr b; url := JStr u |}.

Definition block_of (f : str * str * str * str) : list str :=
  let '(t, a, b, u) := f in text_block t a b u.

(** The placeholder block of an empty rich-text digest (line 100). *)
Definition empty_block (date_str : str) : str :=
  lit "<div class=" ++ dq ++ lit "empty" ++ dq ++ lit ">"
  ++ no_papers_line date_str ++ lit "</div>".

Definition no_sep (s : str) : bool :=
  negb (existsb (fun c => N.eqb c 44 || N.eqb c 59) s).

(** A string with no white space at either end. *)
Definition trimmed (s : str) : bool :=
  match s with
  | [] => true
  | c :: _ => negb (is_space c) && negb (is_space (last s c))
  end.

(** A recipient as line 141 leaves it: not empty, no white space at
    either end, no comma and no semicolon. *)
Definition clean_recipient (r : str) : Prop :=
  r <> [] /\ trimmed r = true /\ no_sep r = true.

Section MailVocabulary.
Variable W : World.

(** The sender: [MAIL_FROM], or the username when it is unset or empty
    (line 139). *)
Definition mail_from_of : str :=
  match environ W (lit "MAIL_FROM") with
  | Some (c :: v) => c :: v
  | _ => getenv W (lit "SMTP_USERNAME") []
  end.

Definition recipients_of : list str :=
  parse_recipients (getenv W (lit "MAIL_TO") []).

(** The message of lines 144-151. *)
Definition message_of (subject html_body text_body : str) : message :=
  {| msg_subject := subject;
     msg_from := mail_from_of;
     msg_to := join (lit ", ") recipients_of;
     msg_parts := [(lit "plain", text_body); (lit "html", html_body)] |}.

(** Every setting line 142 checks is present, with port [port]. *)
Definition config_complete (rt : Runtime) (port : Z) : Prop :=
  read_port rt W = Ok port /\ port <> 0
  /\ getenv W (lit "SMTP_HOST") [] <> []
  /\ getenv W (lit "SMTP_USERNAME") [] <> []
  /\ getenv W (lit "SMTP_PASSWORD") [] <> []
  /\ recipients_of <> [].

(** The call that opens the connection, by port (lines 152-159). *)
Definition connect_cmd (port : Z) : smtp_cmd :=
  if port =? 465 then SmtpSSLConnect (getenv W (lit "SMTP_HOST") []) port
  else SmtpConnect (getenv W (lit "SMTP_HOST") []) port.

Definition login_cmd : smtp_cmd :=
  SmtpLogin (getenv W (lit "SMTP_USERNAME") []) (getenv W (lit "SMTP_PASSWORD") []).

(** The calls of a delivery that goes through, by port. *)
Definition delivery_log (port : Z) (subject html_body text_body : str) : list event :=
  let host := getenv W (lit "SMTP_HOST") [] in
  let login := EvSmtp (SmtpLogin (getenv W (lit "SMTP_USERNAME") [])
                                 (getenv W (lit "SMTP_PASSWORD") [])) in
  let send := EvSmtp (SmtpSendmail mail_from_of recipients_of
                        (message_of subject html_body text_body)) in
  if port =? 465
  then [EvSmtp (SmtpSSLConnect host port); login; send; EvSmtp SmtpQuit]
  else [EvSmtp (SmtpConnect host port); EvSmtp SmtpEhlo; EvSmtp SmtpStarttls;
        EvSmtp SmtpEhlo; login; send; EvSmtp SmtpQuit].
End MailVocabulary.

(** ** Further example inputs *)

Module Cases.

(** Entries that are no objects. *)
Definition scalar_entries : list json := [JInt 1; JStr (lit "x"); JNull].

(** An entry without link keys but with an id. *)
Definition id_only : dict := [(lit "title", JStr (lit "T")); (lit "id", JStr (lit "2611.7"))].

Definition id_record : paper :=
  {| title := JStr (lit "T"); authors := JStr []; abstract := JStr [];
     url := JStr (lit "https://huggingface.co/papers/2611.7") |}.

(** An entry whose only author is named by a number. *)
Definition numbered_author : json :=
  JObj [(lit "authors", JArr [JObj [(lit "name", JInt 5)]])].

(** A wrapper whose own title differs from its paper's. *)
Definition wrapper : json :=
  JObj [(lit "title", JStr (lit "outer"));
        (lit "paper", JObj [(lit "title", JStr (lit "inner"))])].

(** Another wrapper around the same paper. *)
Definition wrapper2 : json :=
  JObj [(lit "paper", JObj [(lit "title", JStr (lit "inner"))]);
        (lit "url", JStr (lit "http://outer"))].

(** 0001-01-02: the second day of the calendar; both days that exist
    before it are empty. *)
Definition world_year_one : World :=
  Stub.world
    [(fetch_url (lit "0001-01-02"), Ok (JArr []));
     (fetch_url (lit "0001-01-01"), Ok (JArr []))]
    2 [].

(** A mail server given by the calls it refuses. *)
Definition mail_world (env : list (str * str)) (refuses : smtp_cmd -> option exn)
  : World :=
  {| upstream := fun _ => Raise (RequestException (HTTPStatus 404));
     today_in := fun _ => Ok Examples.today;
     environ := Stub.assoc env;
     smtp_reply := refuses |}.

(** A server without STARTTLS. *)
Definition no_tls (c : smtp_cmd) : option exn :=
  match c with
  | SmtpStarttls => Some (SMTPException (lit "starttls"))
  | _ => None
  end.

(** A server that rejects every login. *)
Definition no_login (c : smtp_cmd) : option exn :=
  match c with
  | SmtpLogin _ _ => Some (SMTPException (lit "login"))
  | _ => None
  end.

(** A server that cannot be reached. *)
Definition unreachable (c : smtp_cmd) : option exn :=
  match c with
  | SmtpSSLConnect _ _ | SmtpConnect _ _ => Some (SMTPException (lit "connect"))
  | _ => None
  end.

(** The settings of [Examples.env_complete] with the implicit-TLS port. *)
Definition env_ssl : list (str * str) :=
  [(lit "SMTP_HOST", lit "smtp.example.org"); (lit "SMTP_PORT", lit "465");
   (lit "SMTP_USERNAME", lit "digest"); (lit "SMTP_PASSWORD", lit "secret");
   (lit "MAIL_FROM", lit "papers@example.org");
   (lit "MAIL_TO", lit "ada@example.org")].

(** The API has one paper for 2026-11-03 and the mail settings are
    complete. *)
Definition world_ready : World :=
  Stub.world [(fetch_url (lit "2026-11-03"), Ok Examples.one_paper)]
    Examples.today Examples.env_complete.

(** No day has papers and the mail settings are complete. *)
Definition world_quiet : World :=
  Stub.world
    [(fetch_url (lit "2026-11-03"), Ok (JArr []));
     (fetch_url (lit "2026-11-02"), Ok (JArr []))]
    Examples.today Examples.env_complete.

(** The API has one paper for 2026-11-03 but no recipient is set. *)
Definition world_unconfigured : World :=
  Stub.world [(fetch_url (lit "2026-11-03"), Ok Examples.one_paper)]
    Examples.today Examples.env_no_recipients.


(** A subject of two lines. *)
Definition two_line_subject : str := lit "a" ++ [LF] ++ lit "b: c".


(** A clock text for the self-test. *)
Definition stamp (tz : str) : result str := Ok (lit "2026-11-03 08:00:00 CST").

Definition args_date : Args :=
  {| arg_date := lit "2026-11-03"; arg_timezone := Examples.tz;
     arg_max_days_back := 3; arg_subject_prefix := lit "[HF] "; arg_test := false |}.

Definition args_walk : Args :=
  {| arg_date := []; arg_timezone := Examples.tz;
     arg_max_days_back := 1; arg_subject_prefix := []; arg_test := false |}.

Definition args_test : Args :=
  {| arg_date := lit "2026-11-03"; arg_timezone := Examples.tz;
     arg_max_days_back := 3; arg_subject_prefix := []; arg_test := true |}.

End Cases.

(** * Properties *)

(** ** Results *)

Lemma rbind_ok {A B} (r : result A) (f : A -> result B) (b : B) :
  rbind r f = Ok b -> exists a, r = Ok a /\ f a = Ok b.
Proof.
  destruct r as [a|e]; simpl; intros H; [eauto | discriminate].
Qed.

(** ** The normalizer *)

Section NormalizerFacts.
Variable rt : Runtime.

Lemma py_or_falsy (a b : json) : truthy a = false -> py_or a b = b.
Proof. unfold py_or; intros ->; reflexivity. Qed.

Lemma py_or_truthy (a b : json) : truthy a = true -> py_or a b = a.
Proof. unfold py_or; intros ->; reflexivity. Qed.

Lemma field_set_or_empty (v : json) : field_set (py_or v (JStr [])) = true.
Proof.
  unfold py_or, field_set.
  destruct (truthy v) eqn:E; [rewrite E; apply orb_true_r | reflexivity].
Qed.

Lemma text_or_none_or (a b : json) :
  text_or_none a = true -> text_or_none b = true -> text_or_none (py_or a b) = true.
Proof. unfold py_or; destruct (truthy a); auto. Qed.

Lemma is_str_or_empty (v : json) :
  text_or_none v = true -> is_str (py_or v (JStr [])) = true.
Proof. destruct v as [| | | |[|c s]| |]; simpl; intros H; try discriminate; reflexivity. Qed.

(** *** The loop over the entries *)

Lemma papers_loop_inv (items : list json) :
  forall acc ps,
    papers_loop rt items acc = Ok ps ->
    exists ps', ps = acc ++ ps'
                /\ Forall2 (fun it p => entry_record rt it = Ok p) items ps'.
Proof.
  induction items as [|it items IH]; simpl; intros acc ps H.
  - injection H as <-. exists []. rewrite app_nil_r. split; constructor.
  - apply rbind_ok in H. destruct H as (p & Hp & H).
    apply IH in H. destruct H as (ps' & -> & HF).
    exists (p :: ps'). rewrite <- app_assoc. split; [reflexivity|].
    constructor; assumption.
Qed.

Lemma papers_loop_total (Q : json -> paper -> Prop) (items : list json) :
  Forall (fun it => exists p, entry_record rt it = Ok p /\ Q it p) items ->
  forall acc, exists ps',
    papers_loop rt items acc = Ok (acc ++ ps') /\ Forall2 Q items ps'.
Proof.
  induction 1 as [|it items (p & Hp & HQ) _ IH]; simpl; intros acc.
  - exists []. rewrite app_nil_r. split; constructor.
  - rewrite Hp. simpl. destruct (IH (acc ++ [p])) as (ps' & -> & HF).
    exists (p :: ps'). rewrite <- app_assoc. split; [reflexivity|].
    constructor; assumption.
Qed.

Lemma normalize_inv (data : json) (ps : list paper) :
  normalize rt data = Ok ps ->
  exists items, py_iter (items_of data) = Ok items
                /\ Forall2 (fun it p => entry_record rt it = Ok p) items ps.
Proof.
  unfold normalize. intros H. apply rbind_ok in H. destruct H as (items & Hi & H).
  apply papers_loop_inv in H. destruct H as (ps' & -> & HF).
  exists items. split; assumption.
Qed.

Lemma Forall2_In_r {A B} (R : A -> B -> Prop) (l : list A) (l' : list B) :
  Forall2 R l l' -> forall b, In b l' -> exists a, In a l /\ R a b.
Proof.
  induction 1 as [|a b l l' HR _ IH]; simpl; intros x Hx; [contradiction|].
  destruct Hx as [<-|Hx].
  - exists a; auto.
  - destruct (IH x Hx) as (a' & Ha & HR'). exists a'; auto.
Qed.

(** *** One entry *)

Lemma entry_record_fields (it : json) (p : paper) :
  entry_record rt it = Ok p ->
  field_set (title p) = true /\ is_str (authors p) = true
  /\ field_set (abstract p) = true /\ field_set (url p) = true.
Proof.
  unfold entry_record. intros H. apply rbind_ok in H.
  destruct H as (a & _ & H). injection H as <-. simpl.
  repeat split; try apply field_set_or_empty.
Qed.

Lemma url_of_text (obj : dict) :
  text_or_none (dict_get obj (lit "url")) = true ->
  text_or_none (dict_get obj (lit "paperUrl")) = true ->
  text_or_none (dict_get obj (lit "arxivUrl")) = true ->
  is_str (url_of rt obj) = true.
Proof.
  intros H1 H2 H3. unfold url_of.
  set (u := py_or (py_or _ _) _).
  assert (Hu : text_or_none u = true) by (subst u; auto using text_or_none_or).
  destruct (truthy u) eqn:Eu; simpl.
  - now apply is_str_or_empty.
  - destruct (truthy (py_or _ _)); apply is_str_or_empty; [reflexivity | assumption].
Qed.

Lemma entry_record_text (it : json) (p : paper) :
  entry_record rt it = Ok p -> text_entry it -> all_str p = true.
Proof.
  unfold entry_record, text_entry. intros H T. apply rbind_ok in H.
  destruct H as (a & _ & H). injection H as <-.
  assert (K : forall k, In k text_keys -> text_or_none (dict_get (entry_obj it) k) = true)
    by exact T.
  unfold all_str; simpl.
  rewrite !is_str_or_empty, url_of_text; try reflexivity;
    repeat apply text_or_none_or;
    apply K; unfold text_keys; simpl; tauto.
Qed.

(** *** Unrecognized shapes *)

(** C1, as the code has it: a payload that is neither a bare sequence
    nor an object whose [items] key holds a truthy value (a scalar,
    [null], an object without the key, an object whose [items] value
    is [null], [false], zero or empty) normalizes to the empty
    sequence, without failing. *)
Theorem normalize_without_items (data : json) :
  carries_items data = false -> normalize rt data = Ok [].
Proof.
  unfold normalize, carries_items, items_of.
  destruct data as [| | | | | |d]; try (intros _; reflexivity); try discriminate.
  destruct (dict_has d (lit "items")); simpl; intros H; [|reflexivity].
  rewrite (py_or_falsy _ _ H). reflexivity.
Qed.

(** *** Field presence *)

Lemma or_chain2 (obj : dict) (k1 k2 : str) :
  py_or (py_or (dict_get obj k1) (dict_get obj k2)) (JStr [])
  = value_or_empty obj [k1; k2].
Proof.
  unfold value_or_empty, py_or. cbn [map first_truthy].
  destruct (truthy (dict_get obj k1)) eqn:E1; [now rewrite E1|].
  now destruct (truthy (dict_get obj k2)) eqn:E2; rewrite ?E2.
Qed.

Lemma or_chain3 (obj : dict) (k1 k2 k3 : str) :
  py_or (py_or (py_or (dict_get obj k1) (dict_get obj k2)) (dict_get obj k3)) (JStr [])
  = value_or_empty obj [k1; k2; k3].
Proof.
  unfold value_or_empty, py_or. cbn [map first_truthy].
  destruct (truthy (dict_get obj k1)) eqn:E1; [now rewrite !E1|].
  destruct (truthy (dict_get obj k2)) eqn:E2; [now rewrite !E2|].
  now destruct (truthy (dict_get obj k3)) eqn:E3; rewrite ?E3.
Qed.

Lemma url_of_link (obj : dict) : url_of rt obj = link_or_empty rt obj.
Proof.
  unfold url_of, link_or_empty, py_or. cbn [map first_truthy].
  destruct (truthy (dict_get obj (lit "url"))) eqn:E1;
    [repeat first [rewrite E1 | progress cbn [negb]]; reflexivity|].
  destruct (truthy (dict_get obj (lit "paperUrl"))) eqn:E2;
    [repeat first [rewrite E2 | progress cbn [negb]]; reflexivity|].
  destruct (truthy (dict_get obj (lit "arxivUrl"))) eqn:E3;
    [repeat first [rewrite E3 | progress cbn [negb]]; reflexivity|].
  cbn [negb].
  destruct (truthy (dict_get obj (lit "id"))) eqn:E4;
    [repeat first [rewrite E4 | progress cbn [truthy]]; reflexivity|].
  destruct (truthy (dict_get obj (lit "paperId"))) eqn:E5;
    [repeat first [rewrite E5 | progress cbn [truthy]]; reflexivity|].
  now rewrite E3.
Qed.

Lemma entry_record_values (it : json) (p : paper) :
  entry_record rt it = Ok p -> record_of_entry rt it p.
Proof.
  unfold entry_record, record_of_entry. intros H. apply rbind_ok in H.
  destruct H as (a & _ & H). injection H as <-. cbn [title authors abstract url].
  rewrite or_chain2, or_chain3, url_of_link. repeat split.
Qed.

(** C2, as the code has it: every record [normalize] produces has its
    four fields set, none of them [None]. [authors] is a string.
    [title] and [abstract] are the first truthy value bound to their
    fallback keys, passed through unchanged whatever its type, and the
    empty string when every key is missing or holds a falsy value;
    [url] is the first truthy value among the link keys unchanged,
    failing that the link synthesized from the id, failing that the
    empty string. So each field is a string or a truthy upstream
    value, and when the entries bind their title, abstract and url
    keys to text only, all four fields are strings. *)
Theorem normalize_fields_set (data : json) (ps : list paper) :
  normalize rt data = Ok ps ->
  Forall (fun p => field_set (title p) = true /\ is_str (authors p) = true
                   /\ field_set (abstract p) = true /\ field_set (url p) = true) ps
  /\ (forall items, py_iter (items_of data) = Ok items ->
      Forall text_entry items -> Forall (fun p => all_str p = true) ps)
  /\ exists items,
      py_iter (items_of data) = Ok items /\ Forall2 (record_of_entry rt) items ps.
Proof.
  intros H. apply normalize_inv in H. destruct H as (items & Hi & HF).
  split; [|split].
  - apply Forall_forall. intros p Hp.
    destruct (Forall2_In_r _ _ _ HF p Hp) as (it & _ & Hit).
    exact (entry_record_fields it p Hit).
  - intros items' Hi' HT. rewrite Hi in Hi'. injection Hi' as <-.
    apply Forall_forall. intros p Hp.
    destruct (Forall2_In_r _ _ _ HF p Hp) as (it & Hin & Hit).
    apply (entry_record_text it p Hit).
    rewrite Forall_forall in HT. auto.
  - exists items. split; [exact Hi|].
    eapply Forall2_impl; [|exact HF]. exact entry_record_values.
Qed.

(** *** Authors *)

Lemma strs_of_strings (xs : list str) : strs_of (map JStr xs) = Ok xs.
Proof. induction xs as [|x xs IH]; simpl; [|rewrite IH]; reflexivity. Qed.

Lemma text_or_falsy_cases (v : json) :
  text_or_falsy v = true ->
  (exists c s, v = JStr (c :: s)) \/ truthy v = false.
Proof.
  unfold text_or_falsy. destruct (truthy v) eqn:T; [|now right].
  rewrite orb_false_r. destruct v as [| | | |[|c s]| |]; try discriminate.
  intros _. left. eauto.
Qed.

Lemma name_field_falsy (d : dict) (k : str) :
  truthy (dict_get d k) = false -> name_field d k = None.
Proof.
  unfold name_field. destruct (dict_get d k) as [| | | |[|c s]| |]; try reflexivity.
  discriminate.
Qed.

Lemma name_field_text (d : dict) (k : str) (c : N) (s : str) :
  dict_get d k = JStr (c :: s) -> name_field d k = Some (c :: s).
Proof. unfold name_field. now intros ->. Qed.

Lemma name_object_resolve (d : dict) :
  name_object d = true ->
  let n := py_or (py_or (dict_get d (lit "name")) (dict_get d (lit "fullName")))
                 (dict_get d (lit "displayName")) in
  match display_name (JObj d) with
  | Some s => n = JStr s /\ truthy n = true
  | None => truthy n = false
  end.
Proof.
  unfold name_object, resolved_name, display_name. cbv zeta.
  destruct (truthy (dict_get d (lit "name"))) eqn:T1.
  { rewrite !(py_or_truthy _ _ T1). intros H.
    destruct (text_or_falsy_cases _ H) as [(c & s & E)|F]; [|congruence].
    rewrite (name_field_text _ _ _ _ E), E. now split. }
  rewrite (name_field_falsy _ _ T1), (py_or_falsy _ _ T1).
  destruct (truthy (dict_get d (lit "fullName"))) eqn:T2.
  { rewrite (py_or_truthy _ _ T2). intros H.
    destruct (text_or_falsy_cases _ H) as [(c & s & E)|F]; [|congruence].
    rewrite (name_field_text _ _ _ _ E), E. now split. }
  rewrite (name_field_falsy _ _ T2), (py_or_falsy _ _ T2). intros H.
  destruct (text_or_falsy_cases _ H) as [(c & s & E)|F].
  - rewrite (name_field_text _ _ _ _ E), E. now split.
  - now rewrite (name_field_falsy _ _ F).
Qed.

Lemma names_loop_names (l : list json) :
  authors_well_formed (JArr l) = true ->
  forall names, names_loop l names = names ++ map JStr (display_names l).
Proof.
  simpl. induction l as [|a l IH]; simpl; intros H names.
  - now rewrite app_nil_r.
  - apply andb_prop in H. destruct H as [Ha Hl]. specialize (IH Hl).
    destruct a as [| | | |s| |d]; try apply IH.
    + rewrite IH. simpl. now rewrite <- app_assoc.
    + pose proof (name_object_resolve d Ha) as R. cbv zeta in R.
      change (match name_field d (lit "name") with
              | Some n => Some n
              | None => match name_field d (lit "fullName") with
                        | Some n => Some n
                        | None => name_field d (lit "displayName")
                        end
              end) with (display_name (JObj d)).
      destruct (display_name (JObj d)) as [s|].
      * destruct R as [-> T]. rewrite T, IH. simpl. now rewrite <- app_assoc.
      * rewrite R. apply IH.
Qed.

Lemma authors_str_spec (obj : dict) :
  authors_well_formed (dict_get obj (lit "authors")) = true ->
  authors_str obj = Ok (spec_authors (dict_get obj (lit "authors"))).
Proof.
  unfold authors_str, spec_authors, py_or.
  destruct (dict_get obj (lit "authors")) as [|b|z|f|s|l|o]; intros H;
    try reflexivity.
  - destruct b; reflexivity.
  - simpl. destruct (z =? 0); reflexivity.
  - destruct f; reflexivity.
  - destruct s; reflexivity.
  - destruct l as [|a l]; [reflexivity|].
    simpl truthy. cbv iota. unfold py_join.
    rewrite (names_loop_names _ H). simpl app. now rewrite strs_of_strings.
  - destruct o; reflexivity.
Qed.

(** C6, as the code has it: for every payload whose entries carry an
    authors value that is a sequence in which every object resolves
    (the first truthy value among [name], [fullName], [displayName])
    to a string or to nothing, a string, or any other shape, every
    entry yields a record, in input order, whose [authors] field is:
    for a sequence, the display names of its elements (object:
    [name], then [fullName], then [displayName], first non-empty;
    plain string: itself; nameless elements dropped) joined with
    [", "] in input order; for a string, that string; otherwise the
    empty string. *)
Theorem normalize_authors (data : json) (items : list json) :
  py_iter (items_of data) = Ok items ->
  Forall (fun it => authors_well_formed (raw_authors it) = true) items ->
  exists ps,
    normalize rt data = Ok ps
    /\ map authors ps = map (fun it => JStr (spec_authors (raw_authors it))) items.
Proof.
  intros Hi HF. unfold normalize. rewrite Hi. simpl.
  destruct (papers_loop_total
              (fun it p => authors p = JStr (spec_authors (raw_authors it))) items)
    with (acc := @nil paper) as (ps & Hps & H2).
  - eapply Forall_impl; [|exact HF]. intros it Hit. unfold entry_record.
    unfold raw_authors in Hit. rewrite (authors_str_spec _ Hit). simpl.
    eexists; split; reflexivity.
  - exists ps. split; [exact Hps|].
    clear -H2. induction H2 as [|it p items ps Hp _ IH]; simpl; [reflexivity|].
    now rewrite Hp, IH.
Qed.

Lemma names_loop_keeps (l : list json) :
  forall names x, In x names -> In x (names_loop l names).
Proof.
  induction l as [|a l IH]; intros names x H; [exact H|].
  cbn [names_loop]. destruct a; try (now apply IH).
  - apply IH, in_or_app. now left.
  - destruct (truthy _); apply IH; [apply in_or_app; now left | exact H].
Qed.

Lemma names_loop_adds (l : list json) (d : dict) :
  In (JObj d) l -> truthy (resolved_name d) = true ->
  forall names, In (resolved_name d) (names_loop l names).
Proof.
  induction l as [|a l IH]; intros H T names; [contradiction|].
  destruct H as [->|H].
  - cbn [names_loop]. fold (resolved_name d). rewrite T.
    apply names_loop_keeps, in_or_app. right. now left.
  - cbn [names_loop]. destruct a as [| | | | | |o]; try (now apply IH).
    fold (resolved_name o). destruct (truthy (resolved_name o)); now apply IH.
Qed.

Lemma strs_of_non_string (names : list json) (x : json) :
  In x names -> is_str x = false -> strs_of names = Raise TypeError.
Proof.
  induction names as [|n names IH]; intros H S; [contradiction|].
  destruct H as [->|H].
  - destruct x; try reflexivity. discriminate.
  - cbn [strs_of]. destruct n; try reflexivity. now rewrite (IH H S).
Qed.

(** Why the objects are restricted: an object that resolves to a
    truthy value that is no string makes the join of line 43 raise,
    and the entry gives no record. *)
Lemma entry_record_unresolved_author (it : json) (l : list json) (d : dict) :
  raw_authors it = JArr l -> In (JObj d) l -> name_object d = false ->
  entry_record rt it = Raise TypeError.
Proof.
  unfold raw_authors, name_object, text_or_falsy. intros R H N.
  apply orb_false_iff in N. destruct N as [S T]. apply negb_false_iff in T.
  unfold entry_record, authors_str. rewrite R.
  rewrite py_or_truthy by (destruct l; [contradiction | reflexivity]).
  unfold py_join.
  now rewrite (strs_of_non_string _ _ (names_loop_adds l d H T []) S).
Qed.

End NormalizerFacts.

(** The claim C1 as worded fails on an object whose [items] key holds a
    number: the shape is not an accepted one, and the loop over it
    raises. *)
Lemma normalize_items_number_raises :
  accepted_shape (JObj [(lit "items", JInt 5)]) = false
  /\ normalize Stub.rt (JObj [(lit "items", JInt 5)]) = Raise TypeError.
Proof. split; reflexivity. Qed.

(** An [items] key holding text is walked character by character. *)
Lemma normalize_items_text_records :
  accepted_shape (JObj [(lit "items", JStr (lit "ab"))]) = false
  /\ exists p q, normalize Stub.rt (JObj [(lit "items", JStr (lit "ab"))]) = Ok [p; q].
Proof. split; [reflexivity | do 2 eexists; reflexivity]. Qed.

Lemma normalize_without_items_witness :
  carries_items (JObj [(lit "total", JInt 0)]) = false
  /\ normalize Stub.rt (JObj [(lit "total", JInt 0)]) = Ok [].
Proof.
  split; [reflexivity | apply (normalize_without_items Stub.rt); reflexivity].
Defined.

(** The claim C2 as worded fails on an entry whose title is a number:
    the record carries the number, not a string. *)
Lemma normalize_title_number_kept :
  normalize Stub.rt (JArr [JObj [(lit "title", JInt 5)]])
  = Ok [{| title := JInt 5; authors := JStr []; abstract := JStr []; url := JStr [] |}]
  /\ all_str {| title := JInt 5; authors := JStr []; abstract := JStr [];
               url := JStr [] |} = false.
Proof. split; reflexivity. Qed.

Lemma normalize_fields_set_witness :
  Forall (fun p => field_set (title p) = true /\ is_str (authors p) = true
                   /\ field_set (abstract p) = true /\ field_set (url p) = true)
    Examples.text_records
  /\ Forall (fun p => all_str p = true) Examples.text_records
  /\ exists items,
      py_iter (items_of Examples.text_payload) = Ok items
      /\ Forall2 (record_of_entry Stub.rt) items Examples.text_records.
Proof.
  destruct (normalize_fields_set Stub.rt Examples.text_payload Examples.text_records)
    as (H1 & H2 & H3); [reflexivity|].
  split; [exact H1|]. split; [|exact H3].
  refine (H2 _ eq_refl _).
  repeat constructor; intros k Hk; unfold text_keys in Hk; cbn [In] in Hk;
    repeat (destruct Hk as [<-|Hk]; [reflexivity|]); contradiction.
Defined.

(** The claim C6 as worded fails on a sequence that mixes a plain
    string and an object named by a number: the join raises and the
    payload gives no record at all. *)
Lemma normalize_author_number_raises :
  raw_authors Examples.numbered_name_entry
  = JArr [JStr (lit "Ada"); JObj [(lit "name", JInt 5)]]
  /\ normalize Stub.rt (JArr [Examples.numbered_name_entry]) = Raise TypeError.
Proof. split; reflexivity. Qed.

Lemma normalize_authors_witness :
  exists ps,
    normalize Stub.rt (JArr [Examples.mixed_authors_entry]) = Ok ps
    /\ map authors ps = [JStr (lit "Ada, Bob, Cy, Dee")].
Proof.
  apply (normalize_authors Stub.rt (JArr [Examples.mixed_authors_entry]) [Examples.mixed_authors_entry]).
  - reflexivity.
  - repeat constructor.
Defined.

(** ** The date-fallback fetcher *)

Lemma bind_lift_ok {A B} (a : A) (f : A -> io B) : bind (lift (Ok a)) f = f a.
Proof. unfold bind, lift. destruct (f a); reflexivity. Qed.

Lemma bind_lift_raise {A B} (e : exn) (f : A -> io B) :
  bind (lift (Raise e)) f = (Raise e, []).
Proof. reflexivity. Qed.

Lemma bind_ret {A B} (a : A) (f : A -> io B) : bind (ret a) f = f a.
Proof. apply bind_lift_ok. Qed.

Lemma zrange_length (n : nat) : forall i, List.length (zrange i n) = n.
Proof. induction n as [|n IH]; simpl; intros i; [|rewrite IH]; reflexivity. Qed.

Lemma date_minus_days_ok (d i r : Z) : date_minus_days d i = Ok r -> r = d - i.
Proof.
  unfold date_minus_days.
  destruct (MAX_DELTA_DAYS <? Z.abs i); [discriminate|].
  destruct ((d - i <? MINORDINAL) || (MAXORDINAL <? d - i)); [discriminate|].
  now intros [= <-].
Qed.

Section FetcherFacts.
Variable rt : Runtime.
Variable W : World.

Local Abbreviation fetch := (fetch_papers_for_date rt W).
Local Abbreviation loop := (fallback_loop rt W).
Local Abbreviation papers_of := (day_papers rt W).
Local Abbreviation str_of := (day_str rt).
Local Abbreviation get_of := (day_get rt).

(** One fetch is one logged GET, whatever its outcome. *)
Lemma fetch_papers_for_date_eq (ds : str) :
  fetch ds = (rbind (upstream W (fetch_url ds)) (normalize rt), [EvGet (fetch_url ds)]).
Proof.
  unfold fetch_papers_for_date, http_get_json, bind.
  destruct (upstream W (fetch_url ds)); reflexivity.
Qed.

Lemma day_papers_inv (today j : Z) (ps : list paper) :
  papers_of today j = Ok ps ->
  date_minus_days today j = Ok (today - j) /\ fst (fetch (str_of today j)) = Ok ps.
Proof.
  unfold day_papers, day_str. intros H. apply rbind_ok in H.
  destruct H as (d & Hd & H). pose proof (date_minus_days_ok _ _ _ Hd) as ->.
  split; assumption.
Qed.

(** One iteration of the loop, on a day whose fetch succeeds. *)
Lemma fallback_loop_day (today i : Z) (n : nat) (ps : list paper) :
  papers_of today i = Ok ps ->
  loop today i (S n)
  = match ps with
    | [] => (fst (loop today (i + 1) n), get_of today i :: snd (loop today (i + 1) n))
    | _ :: _ => (Ok (Some (str_of today i, ps)), [get_of today i])
    end.
Proof.
  intros H. apply day_papers_inv in H. destruct H as [Hd Hf].
  cbn [fallback_loop]. rewrite Hd, bind_lift_ok. fold (str_of today i).
  rewrite fetch_papers_for_date_eq in Hf |- *. simpl in Hf. rewrite Hf.
  unfold bind, day_get. destruct ps as [|p ps]; [|reflexivity].
  destruct (loop today (i + 1) n); reflexivity.
Qed.

(** One iteration of the loop, on a day whose fetch fails. *)
Lemma fallback_loop_raise (today i : Z) (n : nat) (e : exn) :
  date_minus_days today i = Ok (today - i) ->
  upstream W (fetch_url (str_of today i)) = Raise e ->
  loop today i (S n) = (Raise e, [get_of today i]).
Proof.
  intros Hd Hu. cbn [fallback_loop]. rewrite Hd, bind_lift_ok. fold (str_of today i).
  rewrite fetch_papers_for_date_eq, Hu. reflexivity.
Qed.

(** The walk over days that are all empty. *)
Lemma fallback_loop_empty (today : Z) (n : nat) :
  forall i,
    (forall j, i <= j < i + Z.of_nat n -> papers_of today j = Ok []) ->
    loop today i n = (Ok None, map (get_of today) (zrange i n)).
Proof.
  induction n as [|n IH]; intros i H; [reflexivity|].
  rewrite (fallback_loop_day today i n []) by (apply H; lia).
  rewrite IH by (intros j Hj; apply H; lia). reflexivity.
Qed.

(** The walk up to a day on which the loop stops with outcome [out]. *)
Lemma fallback_loop_until (today : Z) (out : result (option (str * list paper)))
      (k : nat) :
  forall i n,
    (k < n)%nat ->
    (forall j, i <= j < i + Z.of_nat k -> papers_of today j = Ok []) ->
    (forall m, loop today (i + Z.of_nat k) (S m)
               = (out, [get_of today (i + Z.of_nat k)])) ->
    loop today i n = (out, map (get_of today) (zrange i (S k))).
Proof.
  induction k as [|k IH]; intros i n Hn He Hs.
  - destruct n as [|n]; [lia|]. rewrite Z.add_0_r in Hs. now rewrite Hs.
  - destruct n as [|n]; [lia|].
    rewrite (fallback_loop_day today i n []) by (apply He; lia).
    rewrite (IH (i + 1) n); [reflexivity | lia | |].
    + intros j Hj. apply He. lia.
    + intros m. replace (i + 1 + Z.of_nat k) with (i + Z.of_nat (S k)) by lia.
      apply Hs.
Qed.

Lemma fetch_log_length (today k : Z) :
  List.length (fetch_log rt today k) = Z.to_nat (k + 1).
Proof. unfold fetch_log. now rewrite length_map, zrange_length. Qed.

Lemma get_daily_unfold (tz : str) (n today : Z) :
  today_in W tz = Ok today ->
  get_daily_papers_with_fallback rt W tz n
  = bind (loop today 0 (Z.to_nat (n + 1)))
      (fun found => match found with
                    | Some r => ret r
                    | None => ret (_date_str rt today, [])
                    end).
Proof.
  intros H. unfold get_daily_papers_with_fallback. now rewrite H, bind_lift_ok.
Qed.

(** C3: the candidates today, today-1, ... are fetched in that order
    and the walk returns at the first one, [k] days back, whose
    paper list is non-empty, with that date and that list, after
    exactly [k + 1] fetch calls; with [max_days_back = 3] and only
    the day 3 days ago non-empty that is 4 calls. *)
Theorem fallback_first_nonempty (tz : str) (n today k : Z) (p : paper)
        (ps : list paper) :
  today_in W tz = Ok today ->
  0 <= k <= n ->
  (forall j, 0 <= j < k -> papers_of today j = Ok []) ->
  papers_of today k = Ok (p :: ps) ->
  get_daily_papers_with_fallback rt W tz n
  = (Ok (str_of today k, p :: ps), fetch_log rt today k)
  /\ List.length (fetch_log rt today k) = Z.to_nat (k + 1).
Proof.
  intros Ht Hk He Hp. split; [|apply fetch_log_length].
  rewrite (get_daily_unfold tz n today Ht).
  rewrite (fallback_loop_until today (Ok (Some (str_of today k, p :: ps)))
             (Z.to_nat k) 0 (Z.to_nat (n + 1))).
  - unfold fetch_log. replace (Z.to_nat (k + 1)) with (S (Z.to_nat k)) by lia.
    unfold bind, ret. now rewrite app_nil_r.
  - lia.
  - intros j Hj. apply He. lia.
  - intros m. rewrite Z.add_0_l, Z2Nat.id by lia.
    now rewrite (fallback_loop_day today k m (p :: ps)).
Qed.

(** C4: when every candidate of the range yields an empty list, the
    walk returns today's date, not the last date tried, with an
    empty list. *)
Theorem fallback_all_empty (tz : str) (n today : Z) :
  today_in W tz = Ok today ->
  (forall j, 0 <= j <= n -> papers_of today j = Ok []) ->
  fst (get_daily_papers_with_fallback rt W tz n) = Ok (_date_str rt today, []).
Proof.
  intros Ht He. rewrite (get_daily_unfold tz n today Ht).
  rewrite fallback_loop_empty by (intros j Hj; apply He; lia).
  reflexivity.
Qed.

(** C5: a transport failure on the candidate [k] days back, after
    empty days, is what the walk ends with: the same exception, not
    an empty result, and no candidate is fetched after it. *)
Theorem fallback_transport_failure (tz : str) (n today k : Z) (e : exn) :
  today_in W tz = Ok today ->
  0 <= k <= n ->
  (forall j, 0 <= j < k -> papers_of today j = Ok []) ->
  date_minus_days today k = Ok (today - k) ->
  upstream W (fetch_url (str_of today k)) = Raise e ->
  get_daily_papers_with_fallback rt W tz n = (Raise e, fetch_log rt today k).
Proof.
  intros Ht Hk He Hd Hu.
  rewrite (get_daily_unfold tz n today Ht).
  rewrite (fallback_loop_until today (Raise e) (Z.to_nat k) 0 (Z.to_nat (n + 1))).
  - unfold fetch_log. replace (Z.to_nat (k + 1)) with (S (Z.to_nat k)) by lia.
    reflexivity.
  - lia.
  - intros j Hj. apply He. lia.
  - intros m. rewrite Z.add_0_l, Z2Nat.id by lia.
    now apply fallback_loop_raise.
Qed.

(** C10: when every candidate is empty the walk makes one fetch call
    per candidate, [max_days_back + 1] of them for a non-negative
    [max_days_back]; for a negative one it makes none and returns
    today's date with an empty list. *)
Theorem fallback_fetch_count (tz : str) (n today : Z) :
  today_in W tz = Ok today ->
  (forall j, 0 <= j <= n -> papers_of today j = Ok []) ->
  snd (get_daily_papers_with_fallback rt W tz n) = fetch_log rt today n
  /\ (0 <= n ->
      Z.of_nat (List.length (snd (get_daily_papers_with_fallback rt W tz n))) = n + 1)
  /\ (n < 0 ->
      get_daily_papers_with_fallback rt W tz n = (Ok (_date_str rt today, []), [])).
Proof.
  intros Ht He.
  assert (E : get_daily_papers_with_fallback rt W tz n
              = (Ok (_date_str rt today, []), fetch_log rt today n)).
  { rewrite (get_daily_unfold tz n today Ht).
    rewrite fallback_loop_empty by (intros j Hj; apply He; lia).
    unfold bind, ret, fetch_log. now rewrite app_nil_r. }
  rewrite E. simpl. split; [reflexivity|]. split.
  - intros Hn. rewrite fetch_log_length. lia.
  - intros Hn. unfold fetch_log. now replace (Z.to_nat (n + 1)) with O by lia.
Qed.

End FetcherFacts.

Lemma fallback_first_nonempty_witness :
  get_daily_papers_with_fallback Stub.rt Examples.world_third_day Examples.tz 3
  = (Ok (day_str Stub.rt Examples.today 3, [Examples.the_paper]),
     fetch_log Stub.rt Examples.today 3)
  /\ List.length (fetch_log Stub.rt Examples.today 3) = Z.to_nat (3 + 1).
Proof.
  apply (fallback_first_nonempty Stub.rt Examples.world_third_day Examples.tz 3
           Examples.today 3).
  - reflexivity.
  - lia.
  - intros j Hj. assert (j = 0 \/ j = 1 \/ j = 2) as [->|[->| ->]] by lia; reflexivity.
  - reflexivity.
Defined.

(** The run of the example: four GETs, newest date first, and the date
    of the fourth. *)
Example fallback_third_day_run :
  get_daily_papers_with_fallback Stub.rt Examples.world_third_day Examples.tz 3
  = (Ok (lit "2026-10-31", [Examples.the_paper]),
     [EvGet (fetch_url (lit "2026-11-03")); EvGet (fetch_url (lit "2026-11-02"));
      EvGet (fetch_url (lit "2026-11-01")); EvGet (fetch_url (lit "2026-10-31"))]).
Proof. reflexivity. Qed.

Lemma fallback_all_empty_witness :
  fst (get_daily_papers_with_fallback Stub.rt Examples.world_all_empty Examples.tz 3)
  = Ok (_date_str Stub.rt Examples.today, []).
Proof.
  apply (fallback_all_empty Stub.rt Examples.world_all_empty Examples.tz 3 Examples.today).
  - reflexivity.
  - intros j Hj.
    assert (j = 0 \/ j = 1 \/ j = 2 \/ j = 3) as [->|[->|[->| ->]]] by lia; reflexivity.
Defined.

(** The run of the example: today's date, which is not the date of the
    last candidate. *)
Example fallback_all_empty_run :
  fst (get_daily_papers_with_fallback Stub.rt Examples.world_all_empty Examples.tz 3)
  = Ok (lit "2026-11-03", [])
  /\ day_str Stub.rt Examples.today 3 = lit "2026-10-31".
Proof. split; reflexivity. Qed.

Lemma fallback_transport_failure_witness :
  get_daily_papers_with_fallback Stub.rt Examples.world_timeout Examples.tz 3
  = (Raise (RequestException ReadTimeout), fetch_log Stub.rt Examples.today 1).
Proof.
  apply (fallback_transport_failure Stub.rt Examples.world_timeout Examples.tz 3
           Examples.today 1).
  - reflexivity.
  - lia.
  - intros j Hj. assert (j = 0) as -> by lia. reflexivity.
  - reflexivity.
  - reflexivity.
Defined.

(** The run of the example: two GETs, none for the day that has
    papers. *)
Example fallback_timeout_run :
  get_daily_papers_with_fallback Stub.rt Examples.world_timeout Examples.tz 3
  = (Raise (RequestException ReadTimeout),
     [EvGet (fetch_url (lit "2026-11-03")); EvGet (fetch_url (lit "2026-11-02"))]).
Proof. reflexivity. Qed.

Lemma fallback_fetch_count_witness :
  snd (get_daily_papers_with_fallback Stub.rt Examples.world_all_empty Examples.tz 3)
  = fetch_log Stub.rt Examples.today 3
  /\ (0 <= 3 ->
      Z.of_nat (List.length
                  (snd (get_daily_papers_with_fallback Stub.rt Examples.world_all_empty
                          Examples.tz 3))) = 3 + 1)
  /\ (3 < 0 ->
      get_daily_papers_with_fallback Stub.rt Examples.world_all_empty Examples.tz 3
      = (Ok (_date_str Stub.rt Examples.today, []), [])).
Proof.
  apply (fallback_fetch_count Stub.rt Examples.world_all_empty Examples.tz 3
           Examples.today).
  - reflexivity.
  - intros j Hj.
    assert (j = 0 \/ j = 1 \/ j = 2 \/ j = 3) as [->|[->|[->| ->]]] by lia; reflexivity.
Defined.

(** The run with a negative range: no GET at all. *)
Example fallback_negative_run :
  get_daily_papers_with_fallback Stub.rt Examples.world_third_day Examples.tz (-2)
  = (Ok (lit "2026-11-03", []), []).
Proof. reflexivity. Qed.

(** ** The rich-text renderer *)

Lemma join_empty_concat (xs : list str) : join [] xs = List.concat xs.
Proof.
  induction xs as [|x [|y xs] IH]; [reflexivity | simpl; now rewrite app_nil_r |].
  change (join [] (x :: y :: xs)) with (x ++ [] ++ join [] (y :: xs)).
  rewrite IH. reflexivity.
Qed.

Section HtmlFacts.
Variable rt : Runtime.

Lemma parts_loop_map (papers : list paper) :
  forall parts, parts_loop rt papers parts = parts ++ map (card rt) papers.
Proof.
  induction papers as [|p papers IH]; simpl; intros parts.
  - now rewrite app_nil_r.
  - rewrite IH. now rewrite <- app_assoc.
Qed.

(** With at least one paper the body is the cards, one after the
    other in input order. *)
Lemma build_email_html_cards (date_str : str) (p : paper) (papers : list paper) :
  build_email_html rt date_str (p :: papers)
  = html_before_body date_str ++ List.concat (map (card rt) (p :: papers))
    ++ html_after_body.
Proof.
  unfold build_email_html. rewrite parts_loop_map, app_nil_l.
  cbn [map html_body]. now rewrite join_empty_concat.
Qed.

(** Line 95 for a string url. *)
Lemma title_html_str (p : paper) (u : str) :
  url p = JStr u -> title_html rt p = title_element u (shown rt (title p)).
Proof.
  unfold title_html, title_element. intros ->.
  destruct u as [|c u]; reflexivity.
Qed.

(** C8: in the document rendered for a paper list, the card of a
    paper whose url is the string [u] opens with the title element
    for [u]: a non-linked element when [u] is empty, an anchor whose
    target is exactly [u] otherwise. *)
Theorem html_title_element (date_str : str) (before after : list paper)
        (p : paper) (u : str) :
  url p = JStr u ->
  build_email_html rt date_str (before ++ p :: after)
  = html_before_body date_str
    ++ List.concat (map (card rt) before)
    ++ (card_open ++ title_element u (shown rt (title p)) ++ meta_open
        ++ shown rt (authors p) ++ abstract_open ++ shown rt (abstract p)
        ++ card_close)
    ++ List.concat (map (card rt) after)
    ++ html_after_body.
Proof.
  intros Hu.
  assert (E : exists q qs, before ++ p :: after = q :: qs)
    by (destruct before; simpl; eauto).
  destruct E as (q & qs & E). rewrite E, build_email_html_cards, <- E.
  rewrite map_app, concat_app. cbn [map List.concat].
  unfold card at 2. rewrite (title_html_str p u Hu).
  now rewrite <- !app_assoc.
Qed.

End HtmlFacts.

Lemma html_title_element_witness :
  build_email_html Stub.rt Examples.date [Examples.unlinked_paper; Examples.the_paper]
  = html_before_body Examples.date
    ++ List.concat (map (card Stub.rt) [Examples.unlinked_paper])
    ++ (card_open
        ++ title_element (lit "https://huggingface.co/papers/2611.00001") (lit "T")
        ++ meta_open ++ [] ++ abstract_open ++ [] ++ card_close)
    ++ List.concat (map (card Stub.rt) [])
    ++ html_after_body.
Proof.
  apply (html_title_element Stub.rt Examples.date [Examples.unlinked_paper] []
           Examples.the_paper (lit "https://huggingface.co/papers/2611.00001")).
  reflexivity.
Defined.

(** The two title elements of the example, as text. *)
Example title_html_run :
  title_html Stub.rt Examples.unlinked_paper
  = lit "<div class=" ++ dq ++ lit "paper-title" ++ dq ++ lit ">T</div>"
  /\ title_html Stub.rt Examples.the_paper
     = lit "<a class=" ++ dq ++ lit "paper-title" ++ dq ++ lit " href=" ++ dq
       ++ lit "https://huggingface.co/papers/2611.00001" ++ dq ++ lit " target=" ++ dq
       ++ lit "_blank" ++ dq ++ lit ">T</a>".
Proof. split; reflexivity. Qed.

(** ** The dispatcher *)

Section DispatcherFacts.
Variable rt : Runtime.
Variable W : World.

Lemma unset_getenv (k : str) : unset_or_empty W k = true -> getenv W k [] = [].
Proof.
  unfold unset_or_empty, getenv. destruct (environ W k) as [[|c s]|]; auto; discriminate.
Qed.

(** Line 136 raises nothing but the [ValueError] of [int]. *)
Lemma read_port_raise (e : exn) : read_port rt W = Raise e -> e = ValueError.
Proof.
  unfold read_port. destruct (getenv W (lit "SMTP_PORT") (lit "0")) as [|c s];
    [discriminate|].
  destruct (py_int rt (c :: s)); [discriminate | now intros [= <-]].
Qed.

Lemma read_port_unset :
  py_int rt (lit "0") = Some 0 ->
  unset_or_empty W (lit "SMTP_PORT") = true -> read_port rt W = Ok 0.
Proof.
  intros I0. unfold unset_or_empty, read_port, getenv.
  destruct (environ W (lit "SMTP_PORT")) as [[|c s]|]; try discriminate; intros _.
  - reflexivity.
  - change (match lit "0" with [] => Ok 0 | c :: s =>
              match py_int rt (c :: s) with Some z => Ok z | None => Raise ValueError end
            end)
      with (match py_int rt (lit "0") with Some z => Ok z | None => Raise ValueError end).
    now rewrite I0.
Qed.

(** C9, as the code has it: when host, port, username, password or
    the parsed recipient list is empty or unset, [send_email] logs no
    network call at all and fails: with the configuration error when
    the port text is unset, empty or accepted by [int], and with the
    [ValueError] of [int] when the port is set to text that [int]
    rejects, since line 136 converts the port before line 142 checks
    the settings. *)
Theorem send_email_incomplete_config (subject html_body text_body : str) :
  py_int rt (lit "0") = Some 0 ->
  config_incomplete W = true ->
  send_email rt W subject html_body text_body
  = (match read_port rt W with
     | Ok _ => Raise (RuntimeError zh_config_incomplete)
     | Raise _ => Raise ValueError
     end, [])
  /\ (unset_or_empty W (lit "SMTP_PORT") = true ->
      send_email rt W subject html_body text_body
      = (Raise (RuntimeError zh_config_incomplete), [])).
Proof.
  intros I0 H.
  assert (E : send_email rt W subject html_body text_body
              = (match read_port rt W with
                 | Ok _ => Raise (RuntimeError zh_config_incomplete)
                 | Raise _ => Raise ValueError
                 end, [])).
  { unfold send_email. destruct (read_port rt W) as [z|e] eqn:P.
    - rewrite bind_lift_ok.
      match goal with |- (if ?c then _ else _) = _ => assert (C : c = true) end.
      { unfold config_incomplete in H.
        repeat (apply orb_true_iff in H; destruct H as [H|H]).
        - now rewrite (unset_getenv _ H).
        - rewrite (read_port_unset I0 H) in P. injection P as <-.
          simpl. now rewrite orb_true_r.
        - rewrite (unset_getenv _ H). simpl. now rewrite !orb_true_r.
        - rewrite (unset_getenv _ H). simpl. now rewrite !orb_true_r.
        - rewrite H. now rewrite !orb_true_r. }
      rewrite C. reflexivity.
    - rewrite (read_port_raise e P). reflexivity. }
  split; [exact E|].
  intros HP. rewrite E, (read_port_unset I0 HP). reflexivity.
Qed.

End DispatcherFacts.

(** The claim C9 as worded fails when the port is set to text that is
    not a number: with an empty recipient list the run ends with
    [ValueError], not with the configuration error. *)
Lemma send_email_bad_port_value_error :
  config_incomplete (Stub.world [] Examples.today Examples.env_bad_port) = true
  /\ send_email Stub.rt (Stub.world [] Examples.today Examples.env_bad_port)
       (lit "s") (lit "h") (lit "t")
     = (Raise ValueError, [])
  /\ ValueError <> RuntimeError zh_config_incomplete.
Proof. repeat split; try reflexivity. discriminate. Qed.

Lemma send_email_incomplete_config_witness :
  send_email Stub.rt (Stub.world [] Examples.today Examples.env_no_recipients)
    (lit "s") (lit "h") (lit "t")
  = (match read_port Stub.rt (Stub.world [] Examples.today Examples.env_no_recipients) with
     | Ok _ => Raise (RuntimeError zh_config_incomplete)
     | Raise _ => Raise ValueError
     end, [])
  /\ (unset_or_empty (Stub.world [] Examples.today Examples.env_no_recipients)
        (lit "SMTP_PORT") = true ->
      send_email Stub.rt (Stub.world [] Examples.today Examples.env_no_recipients)
        (lit "s") (lit "h") (lit "t")
      = (Raise (RuntimeError zh_config_incomplete), [])).
Proof.
  apply (send_email_incomplete_config Stub.rt
           (Stub.world [] Examples.today Examples.env_no_recipients)); reflexivity.
Defined.

(** The run of the example: the configuration error and an empty log. *)
Example send_email_no_recipients_run :
  send_email Stub.rt (Stub.world [] Examples.today Examples.env_no_recipients)
    (lit "s") (lit "h") (lit "t")
  = (Raise (RuntimeError zh_config_incomplete), []).
Proof. reflexivity. Qed.

(** The run with every setting present: the connection is the first
    logged call, and authentication precedes the send. *)
Example send_email_complete_run :
  exists msg,
    send_email Stub.rt (Stub.world [] Examples.today Examples.env_complete)
      (lit "s") (lit "h") (lit "t")
    = (Ok tt,
       [EvSmtp (SmtpConnect (lit "smtp.example.org") 587); EvSmtp SmtpEhlo;
        EvSmtp SmtpStarttls; EvSmtp SmtpEhlo;
        EvSmtp (SmtpLogin (lit "digest") (lit "secret"));
        EvSmtp (SmtpSendmail (lit "digest")
                  [lit "ada@example.org"; lit "bob@example.org"] msg);
        EvSmtp SmtpQuit]).
Proof. eexists. reflexivity. Qed.

(** ** The plain-text renderer *)

(** *** Splitting what was joined *)

Lemma has_LF_app (a b : str) : has_LF (a ++ b) = has_LF a || has_LF b.
Proof. apply existsb_app. Qed.

Lemma split_on_app (s rest : str) :
  has_LF s = false -> split_on LF (s ++ LF :: rest) = s :: split_on LF rest.
Proof.
  unfold has_LF. induction s as [|c s IH]; cbn [existsb split_on app]; intros H.
  - now rewrite ?N.eqb_refl.
  - apply orb_false_iff in H. destruct H as [Hc Hs].
    rewrite N.eqb_sym, Hc, (IH Hs). reflexivity.
Qed.

Lemma split_on_line (s : str) : has_LF s = false -> split_on LF s = [s].
Proof.
  unfold has_LF. induction s as [|c s IH]; cbn [existsb split_on app]; intros H.
  - now rewrite ?N.eqb_refl.
  - apply orb_false_iff in H. destruct H as [Hc Hs].
    rewrite N.eqb_sym, Hc, (IH Hs). reflexivity.
Qed.

Lemma split_on_join (l : str) (lines : list str) :
  Forall (fun s => has_LF s = false) (l :: lines) ->
  split_on LF (join [LF] (l :: lines)) = l :: lines.
Proof.
  revert l. induction lines as [|m lines IH]; intros l H.
  - apply split_on_line. now inversion H.
  - change (join [LF] (l :: m :: lines)) with (l ++ LF :: join [LF] (m :: lines)).
    inversion H as [|? ? Hl Hrest]; subst.
    rewrite (split_on_app _ _ Hl), (IH m Hrest). reflexivity.
Qed.

(** *** Reading lines back *)

Lemma strip_prefix_app (p s : str) : strip_prefix p (p ++ s) = Some s.
Proof.
  induction p as [|c p IH]; simpl; [destruct s; reflexivity|].
  now rewrite N.eqb_refl.
Qed.

Lemma parse_title_line (acc : list paper) (t : str) :
  parse_line acc (title_prefix ++ t)
  = {| title := JStr t; authors := JStr []; abstract := JStr []; url := JStr [] |}
    :: acc.
Proof. unfold parse_line. now rewrite strip_prefix_app. Qed.

Lemma parse_authors_line (p : paper) (rest : list paper) (a : str) :
  parse_line (p :: rest) (authors_prefix ++ a)
  = {| title := title p; authors := JStr a; abstract := abstract p; url := url p |}
    :: rest.
Proof.
  unfold parse_line.
  change (strip_prefix title_prefix (authors_prefix ++ a)) with (@None str).
  now rewrite strip_prefix_app.
Qed.

Lemma parse_abstract_line (p : paper) (rest : list paper) (a : str) :
  parse_line (p :: rest) (abstract_prefix ++ a)
  = {| title := title p; authors := authors p; abstract := JStr a; url := url p |}
    :: rest.
Proof.
  unfold parse_line.
  change (strip_prefix title_prefix (abstract_prefix ++ a)) with (@None str).
  change (strip_prefix authors_prefix (abstract_prefix ++ a)) with (@None str).
  now rewrite strip_prefix_app.
Qed.

Lemma parse_link_line (p : paper) (rest : list paper) (u : str) :
  parse_line (p :: rest) (link_prefix ++ u)
  = {| title := title p; authors := authors p; abstract := abstract p; url := JStr u |}
    :: rest.
Proof.
  unfold parse_line.
  change (strip_prefix title_prefix (link_prefix ++ u)) with (@None str).
  change (strip_prefix authors_prefix (link_prefix ++ u)) with (@None str).
  change (strip_prefix abstract_prefix (link_prefix ++ u)) with (@None str).
  now rewrite strip_prefix_app.
Qed.

Lemma parse_placeholder (date_str : str) :
  plain_date date_str = true -> parse_line [] (no_papers_line date_str) = [].
Proof.
  unfold plain_date, parse_line, no_papers_line. intros H.
  apply andb_prop in H. destruct H as [_ H].
  destruct date_str as [|c d]; [reflexivity|].
  change (strip_prefix title_prefix ((c :: d) ++ lit " " ++ zh_none_available
                                     ++ lit " Daily Papers" ++ zh_stop))
    with (if N.eqb 45 c
          then strip_prefix [32%N] (d ++ lit " " ++ zh_none_available
                                    ++ lit " Daily Papers" ++ zh_stop)
          else None).
  rewrite N.eqb_sym. apply negb_true_iff in H. now rewrite H.
Qed.

Section TextFacts.
Variable rt : Runtime.

Lemma lines_loop_concat (papers : list paper) :
  forall lines,
    lines_loop rt papers lines = lines ++ List.concat (map (paper_lines rt) papers).
Proof.
  induction papers as [|p papers IH]; simpl; intros lines.
  - now rewrite app_nil_r.
  - rewrite IH. now rewrite <- app_assoc.
Qed.

(** The lines of the digest, before they are joined. *)
Lemma build_email_text_lines (date_str : str) (papers : list paper) :
  build_email_text rt date_str papers
  = join [LF] (header_line date_str
               :: match papers with
                  | [] => [no_papers_line date_str]
                  | _ :: _ => List.concat (map (paper_lines rt) papers)
                  end).
Proof.
  unfold build_email_text. destruct papers as [|p papers]; [reflexivity|].
  now rewrite lines_loop_concat.
Qed.

(** Lines 121-131 on a record of strings. *)
Lemma paper_lines_str (t a b u : str) :
  paper_lines rt {| title := JStr t; authors := JStr a; abstract := JStr b;
                    url := JStr u |}
  = (title_prefix ++ t) :: field_line authors_prefix a
    ++ field_line abstract_prefix b ++ field_line link_prefix u.
Proof. unfold paper_lines. destruct t, a, b, u; reflexivity. Qed.

Lemma plain_paper_inv (p : paper) :
  plain_paper p = true ->
  exists t a b u,
    p = {| title := JStr t; authors := JStr a; abstract := JStr b; url := JStr u |}
    /\ has_LF t = false /\ has_LF a = false /\ has_LF b = false /\ has_LF u = false.
Proof.
  destruct p as [t a b u]. unfold plain_paper, plain_field. simpl. intros H.
  destruct t as [| | | |t| |]; try discriminate;
    destruct a as [| | | |a| |]; try (now rewrite ?andb_false_r in H);
    destruct b as [| | | |b| |]; try (now rewrite ?andb_false_r in H);
    destruct u as [| | | |u| |]; try (now rewrite ?andb_false_r in H).
  apply andb_prop in H. destruct H as [H Hu].
  apply andb_prop in H. destruct H as [H Hb].
  apply andb_prop in H. destruct H as [Ht Ha].
  exists t, a, b, u. rewrite negb_true_iff in *. auto.
Qed.

Lemma field_line_plain (prefix s : str) :
  has_LF prefix = false -> has_LF s = false ->
  Forall (fun l => has_LF l = false) (field_line prefix s).
Proof.
  intros Hp Hs. destruct s as [|c s]; constructor; [|constructor].
  now rewrite has_LF_app, Hp, Hs.
Qed.

Lemma paper_lines_plain (p : paper) :
  plain_paper p = true -> Forall (fun l => has_LF l = false) (paper_lines rt p).
Proof.
  intros H. destruct (plain_paper_inv p H) as (t & a & b & u & -> & Ht & Ha & Hb & Hu).
  rewrite paper_lines_str. constructor.
  - now rewrite has_LF_app, Ht.
  - repeat (apply Forall_app; split); now apply field_line_plain.
Qed.

Lemma fold_field_authors (p : paper) (rest : list paper) (a : str) :
  authors p = JStr [] ->
  fold_left parse_line (field_line authors_prefix a) (p :: rest)
  = {| title := title p; authors := JStr a; abstract := abstract p; url := url p |}
    :: rest.
Proof.
  intros H. destruct a as [|c a]; simpl.
  - destruct p; simpl in *; now subst.
  - apply parse_authors_line.
Qed.

Lemma fold_field_abstract (p : paper) (rest : list paper) (b : str) :
  abstract p = JStr [] ->
  fold_left parse_line (field_line abstract_prefix b) (p :: rest)
  = {| title := title p; authors := authors p; abstract := JStr b; url := url p |}
    :: rest.
Proof.
  intros H. destruct b as [|c b]; simpl.
  - destruct p; simpl in *; now subst.
  - apply parse_abstract_line.
Qed.

Lemma fold_field_link (p : paper) (rest : list paper) (u : str) :
  url p = JStr [] ->
  fold_left parse_line (field_line link_prefix u) (p :: rest)
  = {| title := title p; authors := authors p; abstract := abstract p; url := JStr u |}
    :: rest.
Proof.
  intros H. destruct u as [|c u]; simpl.
  - destruct p; simpl in *; now subst.
  - apply parse_link_line.
Qed.

(** Reading the lines of one paper adds that paper. *)
Lemma parse_paper_lines (p : paper) (acc : list paper) :
  plain_paper p = true ->
  fold_left parse_line (paper_lines rt p) acc = p :: acc.
Proof.
  intros H. destruct (plain_paper_inv p H) as (t & a & b & u & -> & _).
  rewrite paper_lines_str. cbn [fold_left]. rewrite parse_title_line.
  rewrite !fold_left_app.
  rewrite fold_field_authors by reflexivity. cbn [title authors abstract url].
  rewrite fold_field_abstract by reflexivity. cbn [title authors abstract url].
  rewrite fold_field_link by reflexivity. reflexivity.
Qed.

Lemma parse_all_lines (papers : list paper) :
  forallb plain_paper papers = true ->
  forall acc,
    fold_left parse_line (List.concat (map (paper_lines rt) papers)) acc
    = rev papers ++ acc.
Proof.
  induction papers as [|p papers IH]; cbn [map List.concat forallb rev];
    intros H acc; [reflexivity|].
  apply andb_prop in H. destruct H as [Hp Hps].
  rewrite fold_left_app, (parse_paper_lines p acc Hp), (IH Hps).
  now rewrite <- app_assoc.
Qed.

Lemma all_lines_plain (papers : list paper) :
  forallb plain_paper papers = true ->
  Forall (fun l => has_LF l = false) (List.concat (map (paper_lines rt) papers)).
Proof.
  induction papers as [|p papers IH]; cbn [map List.concat forallb];
    intros H; [constructor|].
  apply andb_prop in H. destruct H as [Hp Hps].
  apply Forall_app. split; [now apply paper_lines_plain | now apply IH].
Qed.

(** C7, as the code has it: for a date without line feed that does
    not open with a dash, and papers whose four fields are strings
    without line feed, reading the plain-text form back line by line
    gives the papers again, field for field and in input order; so
    on such lists the plain-text form is injective. *)
Theorem parse_build_email_text (date_str : str) (papers : list paper) :
  plain_date date_str = true ->
  forallb plain_paper papers = true ->
  parse_text (build_email_text rt date_str papers) = papers.
Proof.
  intros Hd Hp. unfold parse_text. rewrite build_email_text_lines.
  assert (Hh : has_LF (header_line date_str) = false).
  { unfold header_line. rewrite has_LF_app.
    apply andb_prop in Hd. destruct Hd as [Hd _]. apply negb_true_iff in Hd.
    now rewrite Hd. }
  rewrite split_on_join.
  - cbn [tl]. destruct papers as [|p papers].
    + cbn [fold_left]. now rewrite parse_placeholder.
    + rewrite (parse_all_lines (p :: papers) Hp), app_nil_r. apply rev_involutive.
  - constructor; [exact Hh|]. destruct papers as [|p papers].
    + constructor; [|constructor]. unfold no_papers_line.
      apply andb_prop in Hd. destruct Hd as [Hd _]. apply negb_true_iff in Hd.
      now rewrite has_LF_app, Hd.
    + now apply all_lines_plain.
Qed.

End TextFacts.

(** The claim C7 as worded fails: a title that carries a line feed
    followed by an authors line renders like a paper with that
    authors field, so no reader recovers both lists. *)
Lemma build_email_text_not_injective :
  build_email_text Stub.rt Examples.date Examples.folded
  = build_email_text Stub.rt Examples.date Examples.unfolded
  /\ Examples.folded <> Examples.unfolded
  /\ ~ (exists parse : str -> list paper,
          parse (build_email_text Stub.rt Examples.date Examples.folded)
          = Examples.folded
          /\ parse (build_email_text Stub.rt Examples.date Examples.unfolded)
             = Examples.unfolded).
Proof.
  assert (E : build_email_text Stub.rt Examples.date Examples.folded
              = build_email_text Stub.rt Examples.date Examples.unfolded)
    by reflexivity.
  assert (D : Examples.folded <> Examples.unfolded) by discriminate.
  split; [exact E|]. split; [exact D|].
  intros (parse & Hf & Hu). rewrite E, Hu in Hf. now apply D.
Qed.

(** Why the date is restricted: under a date that opens with a dash
    the placeholder line of an empty digest reads as a title line. *)
Lemma build_email_text_dash_date_ambiguous :
  build_email_text Stub.rt Examples.dash_date []
  = build_email_text Stub.rt Examples.dash_date Examples.placeholder_title
  /\ forallb plain_paper Examples.placeholder_title = true.
Proof. split; reflexivity. Qed.

(** Why the date is restricted: a date of several lines moves the
    boundary between header and body, so the text alone does not tell
    an empty digest from a digest of one paper. *)
Lemma build_email_text_multiline_date_ambiguous :
  build_email_text Stub.rt Examples.two_line_date []
  = build_email_text Stub.rt Examples.three_line_date Examples.placeholder_tail
  /\ forallb plain_paper Examples.placeholder_tail = true.
Proof. split; reflexivity. Qed.

Lemma parse_build_email_text_witness :
  parse_text (build_email_text Stub.rt Examples.date
                [Examples.unlinked_paper; Examples.the_paper])
  = [Examples.unlinked_paper; Examples.the_paper].
Proof.
  apply (parse_build_email_text Stub.rt Examples.date
           [Examples.unlinked_paper; Examples.the_paper]); reflexivity.
Defined.

(** The plain-text form of the example. *)
Example build_email_text_run :
  build_email_text Stub.rt Examples.date [Examples.unlinked_paper; Examples.the_paper]
  = join [LF]
      [lit "Hugging Face Daily Papers - 2026-11-03";
       lit "- T";
       authors_prefix ++ lit "Ada";
       lit "- T";
       link_prefix ++ lit "https://huggingface.co/papers/2611.00001"].
Proof. reflexivity. Qed.

(** * Further properties *)

(** ** The normalizer, entry by entry *)

Lemma dict_get_has (d : dict) (k : str) :
  dict_get d k <> JNull -> dict_has d k = true.
Proof.
  unfold dict_has. induction d as [|[k' v] d IH]; simpl; intros H; [congruence|].
  destruct (str_eqb k' k); [reflexivity | auto].
Qed.

Section NormalizerMore.
Variable rt : Runtime.

Lemma papers_loop_acc (items : list json) :
  forall acc,
    papers_loop rt items acc
    = rbind (papers_loop rt items []) (fun ps => Ok (acc ++ ps)).
Proof.
  induction items as [|it items IH]; intros acc; cbn [papers_loop].
  - simpl. now rewrite app_nil_r.
  - destruct (entry_record rt it) as [p|e]; [|reflexivity]. cbn [rbind].
    rewrite (IH (acc ++ [p])), (IH ([] ++ [p])).
    destruct (papers_loop rt items []) as [ps|e]; [|reflexivity].
    simpl. now rewrite <- app_assoc.
Qed.

Lemma papers_loop_app (l1 l2 : list json) :
  forall acc,
    papers_loop rt (l1 ++ l2) acc
    = rbind (papers_loop rt l1 acc) (fun ps => papers_loop rt l2 ps).
Proof.
  induction l1 as [|it l1 IH]; intros acc; [reflexivity|].
  cbn [app papers_loop]. destruct (entry_record rt it) as [p|e]; [|reflexivity].
  apply IH.
Qed.

Lemma papers_loop_map (f : json -> json) (items : list json) :
  Forall (fun it => entry_record rt (f it) = entry_record rt it) items ->
  forall acc, papers_loop rt (map f items) acc = papers_loop rt items acc.
Proof.
  induction 1 as [|it items Hit _ IH]; intros acc; [reflexivity|].
  cbn [map papers_loop]. rewrite Hit.
  destruct (entry_record rt it) as [p|e]; [|reflexivity]. apply IH.
Qed.

Lemma strs_of_raise (names : list json) (e : exn) :
  strs_of names = Raise e -> e = TypeError.
Proof.
  induction names as [|n names IH]; simpl; [discriminate|].
  destruct n; try (now intros [= <-]).
  destruct (strs_of names) as [ss|e']; simpl; [discriminate|].
  intros [= <-]. now apply IH.
Qed.

Lemma entry_record_raise (it : json) (e : exn) :
  entry_record rt it = Raise e -> e = TypeError.
Proof.
  unfold entry_record, authors_str, py_join.
  destruct (py_or (dict_get (entry_obj it) (lit "authors")) (JArr [])); try discriminate.
  destruct (strs_of (names_loop l [])) as [ss|e'] eqn:E; simpl; [discriminate|].
  intros [= <-]. exact (strs_of_raise _ _ E).
Qed.

Lemma papers_loop_raise (items : list json) (e : exn) :
  forall acc, papers_loop rt items acc = Raise e -> e = TypeError.
Proof.
  induction items as [|it items IH]; intros acc; cbn [papers_loop]; [discriminate|].
  destruct (entry_record rt it) as [p|e'] eqn:E; cbn [rbind].
  - apply IH.
  - intros [= <-]. exact (entry_record_raise _ _ E).
Qed.

Lemma entry_record_non_object (it : json) :
  is_object it = false -> entry_record rt it = Ok empty_paper.
Proof. destruct it; try discriminate; reflexivity. Qed.

(** X1: a payload that normalizes gives exactly one record per entry,
    in the order of the entries: nothing is dropped, merged or
    reordered. *)
Theorem normalize_one_record_per_entry (data : json) (items : list json)
        (ps : list paper) :
  py_iter (items_of data) = Ok items ->
  normalize rt data = Ok ps ->
  List.length ps = List.length items
  /\ Forall2 (fun it p => entry_record rt it = Ok p) items ps.
Proof.
  intros Hi H. destruct (normalize_inv rt data ps H) as (items' & Hi' & HF).
  rewrite Hi in Hi'. injection Hi' as <-. split; [|exact HF].
  symmetry. exact (Forall2_length HF).
Qed.

(** X2: the only exception normalization itself raises is
    [TypeError] (an [items] value that cannot be iterated, or a
    resolved author name that is no string). *)
Theorem normalize_raises_type_error (data : json) (e : exn) :
  normalize rt data = Raise e -> e = TypeError.
Proof.
  unfold normalize. destruct (py_iter (items_of data)) as [items|e'] eqn:E; cbn [rbind].
  - apply papers_loop_raise.
  - intros [= <-]. destruct (items_of data); simpl in E; congruence.
Qed.

(** X3: entries of a bare sequence that are no objects (numbers,
    strings, null, nested lists) each degrade to a record of four
    empty strings; none of them makes normalization fail. *)
Theorem normalize_non_object_entries (items : list json) :
  forallb (fun it => negb (is_object it)) items = true ->
  normalize rt (JArr items) = Ok (map (fun _ => empty_paper) items).
Proof.
  intros H. unfold normalize. cbn [items_of py_iter rbind].
  rewrite papers_loop_acc. cbn [app].
  assert (E : papers_loop rt items [] = Ok (map (fun _ => empty_paper) items)).
  { induction items as [|it items IH]; [reflexivity|].
    cbn [forallb] in H. apply andb_prop in H. destruct H as [Hit H].
    apply negb_true_iff in Hit.
    cbn [papers_loop]. rewrite (entry_record_non_object it Hit). cbn [rbind].
    rewrite papers_loop_acc, (IH H). reflexivity. }
  rewrite E. reflexivity.
Qed.

(** X4: normalizing a concatenation of two sequences is normalizing
    each and concatenating the records; the first failing entry
    decides the failure. *)
Theorem normalize_app (l1 l2 : list json) :
  normalize rt (JArr (l1 ++ l2))
  = rbind (normalize rt (JArr l1))
      (fun p1 => rbind (normalize rt (JArr l2)) (fun p2 => Ok (p1 ++ p2))).
Proof.
  unfold normalize. cbn [items_of py_iter rbind].
  rewrite papers_loop_app.
  destruct (papers_loop rt l1 []) as [p1|e]; [|reflexivity]. cbn [rbind].
  apply papers_loop_acc.
Qed.

(** X5: an object whose [items] key holds a sequence normalizes
    exactly like that sequence given bare. *)
Theorem normalize_items_wrapper (d : dict) (l : list json) :
  dict_get d (lit "items") = JArr l ->
  normalize rt (JObj d) = normalize rt (JArr l).
Proof.
  intros H. unfold normalize. cbn [items_of].
  rewrite dict_get_has by (rewrite H; discriminate).
  rewrite H. destruct l; reflexivity.
Qed.

(** X6: an entry wrapped under a [paper] key that holds an object is
    read from that object alone: two wrappers around the same paper
    object give the same record, whatever else the wrappers carry, and
    the record is that of the paper object given bare unless that
    object is a wrapper itself (one level is unwrapped, not more). *)
Theorem entry_record_wrapped (it it' : json) (p : dict) :
  wrapped_paper it = Some p ->
  (wrapped_paper it' = Some p -> entry_record rt it' = entry_record rt it)
  /\ (wrapped_paper (JObj p) = None -> entry_record rt (JObj p) = entry_record rt it).
Proof.
  assert (K : forall x q, wrapped_paper x = Some q -> entry_obj x = q).
  { intros x q. unfold wrapped_paper, entry_obj.
    destruct x as [| | | | | |d]; try discriminate.
    destruct (dict_get d (lit "paper")); try discriminate. now intros [= <-]. }
  intros H. split; intros H'; unfold entry_record.
  - now rewrite (K _ _ H), (K _ _ H').
  - rewrite (K _ _ H). replace (entry_obj (JObj p)) with p; [reflexivity|].
    unfold wrapped_paper in H'. unfold entry_obj.
    destruct (dict_get p (lit "paper")); try reflexivity. discriminate.
Qed.

(** X7: when none of [url], [paperUrl], [arxivUrl] holds a truthy
    value, the link is synthesized from [id], or from [paperId] when
    [id] is falsy, as the fixed prefix followed by the id's text; with
    no truthy id either it is the empty string. *)
Theorem url_of_synthesized (obj : dict) :
  truthy (dict_get obj (lit "url")) = false ->
  truthy (dict_get obj (lit "paperUrl")) = false ->
  truthy (dict_get obj (lit "arxivUrl")) = false ->
  url_of rt obj
  = (let pid := py_or (dict_get obj (lit "id")) (dict_get obj (lit "paperId")) in
     if truthy pid then JStr (PAPER_URL_PREFIX ++ py_str rt pid) else JStr []).
Proof.
  intros H1 H2 H3. unfold url_of.
  rewrite (py_or_falsy _ _ H1), (py_or_falsy _ _ H2), H3. cbn [negb].
  destruct (truthy (py_or _ _)) eqn:T.
  - reflexivity.
  - now rewrite (py_or_falsy _ _ H3).
Qed.

End NormalizerMore.

Lemma normalize_one_record_per_entry_witness :
  List.length [Cases.id_record] = List.length [JObj Cases.id_only]
  /\ Forall2 (fun it p => entry_record Stub.rt it = Ok p)
       [JObj Cases.id_only] [Cases.id_record].
Proof.
  apply (normalize_one_record_per_entry Stub.rt (JArr [JObj Cases.id_only])); reflexivity.
Defined.

Lemma normalize_raises_type_error_witness : TypeError = TypeError.
Proof.
  apply (normalize_raises_type_error Stub.rt (JArr [Cases.numbered_author])).
  reflexivity.
Defined.

(** The run of the example: a numeric author name makes the whole
    normalization fail. *)
Example normalize_numbered_author_run :
  normalize Stub.rt (JArr [JObj Cases.id_only; Cases.numbered_author]) = Raise TypeError.
Proof. reflexivity. Qed.

Lemma normalize_non_object_entries_witness :
  normalize Stub.rt (JArr Cases.scalar_entries)
  = Ok (map (fun _ => empty_paper) Cases.scalar_entries).
Proof.
  apply (normalize_non_object_entries Stub.rt Cases.scalar_entries). reflexivity.
Defined.

Lemma normalize_items_wrapper_witness :
  normalize Stub.rt (JObj [(lit "total", JInt 1); (lit "items", JArr [JObj Cases.id_only])])
  = normalize Stub.rt (JArr [JObj Cases.id_only]).
Proof.
  apply (normalize_items_wrapper Stub.rt
           [(lit "total", JInt 1); (lit "items", JArr [JObj Cases.id_only])]).
  reflexivity.
Defined.

Lemma entry_record_wrapped_witness :
  (wrapped_paper Cases.wrapper2 = Some [(lit "title", JStr (lit "inner"))] ->
   entry_record Stub.rt Cases.wrapper2 = entry_record Stub.rt Cases.wrapper)
  /\ (wrapped_paper (JObj [(lit "title", JStr (lit "inner"))]) = None ->
      entry_record Stub.rt (JObj [(lit "title", JStr (lit "inner"))])
      = entry_record Stub.rt Cases.wrapper).
Proof.
  apply (entry_record_wrapped Stub.rt Cases.wrapper Cases.wrapper2
           [(lit "title", JStr (lit "inner"))]).
  reflexivity.
Defined.

(** The run of the example: the inner title is the one kept. *)
Example entry_record_wrapper_run :
  exists p, entry_record Stub.rt Cases.wrapper = Ok p /\ title p = JStr (lit "inner").
Proof. eexists. split; reflexivity. Qed.

Lemma url_of_synthesized_witness :
  url_of Stub.rt Cases.id_only
  = (let pid := py_or (dict_get Cases.id_only (lit "id"))
                      (dict_get Cases.id_only (lit "paperId")) in
     if truthy pid then JStr (PAPER_URL_PREFIX ++ py_str Stub.rt pid) else JStr []).
Proof.
  apply (url_of_synthesized Stub.rt Cases.id_only); reflexivity.
Defined.

(** The run of the example. *)
Example url_of_id_run :
  url_of Stub.rt Cases.id_only = JStr (lit "https://huggingface.co/papers/2611.7").
Proof. reflexivity. Qed.

(** ** The fetcher, for every world *)

Lemma date_minus_days_underflow (d i : Z) :
  d - i < MINORDINAL -> date_minus_days d i = Raise OverflowError.
Proof.
  intros H. unfold date_minus_days.
  destruct (MAX_DELTA_DAYS <? Z.abs i); [reflexivity|].
  apply Z.ltb_lt in H. now rewrite H.
Qed.

Lemma zrange_app (k m : nat) :
  forall i, zrange i (k + m) = zrange i k ++ zrange (i + Z.of_nat k) m.
Proof.
  induction k as [|k IH]; intros i.
  - simpl. now rewrite Z.add_0_r.
  - cbn [Nat.add zrange app]. rewrite IH. do 3 f_equal. lia.
Qed.

Section FetcherMore.
Variable rt : Runtime.
Variable W : World.

Local Abbreviation fetch := (fetch_papers_for_date rt W).
Local Abbreviation loop := (fallback_loop rt W).
Local Abbreviation papers_of := (day_papers rt W).
Local Abbreviation str_of := (day_str rt).
Local Abbreviation get_of := (day_get rt).

(** One iteration of the loop, on a day that fails. *)
Lemma fallback_loop_failed_day (today i : Z) (n : nat) (e : exn) :
  papers_of today i = Raise e ->
  loop today i (S n) = (Raise e, [])
  \/ loop today i (S n) = (Raise e, [get_of today i]).
Proof.
  unfold day_papers. intros H. cbn [fallback_loop].
  destruct (date_minus_days today i) as [d|e'] eqn:D; cbn [rbind] in H.
  - pose proof (date_minus_days_ok _ _ _ D) as ->.
    rewrite bind_lift_ok. right.
    rewrite fetch_papers_for_date_eq in H |- *. cbn [fst] in H. rewrite H.
    reflexivity.
  - injection H as <-. left. reflexivity.
Qed.

(** The walk past [k] empty days. *)
Lemma fallback_loop_skip (today : Z) (k m : nat) :
  forall i,
    (forall j, i <= j < i + Z.of_nat k -> papers_of today j = Ok []) ->
    loop today i (k + m)
    = (fst (loop today (i + Z.of_nat k) m),
       map (get_of today) (zrange i k) ++ snd (loop today (i + Z.of_nat k) m)).
Proof.
  induction k as [|k IH]; intros i H.
  - cbn [Nat.add zrange map app]. rewrite Z.add_0_r. now destruct (loop today i m).
  - cbn [Nat.add]. rewrite (fallback_loop_day rt W today i (k + m) []) by (apply H; lia).
    rewrite (IH (i + 1)) by (intros j Hj; apply H; lia).
    cbn [fst snd zrange map app].
    replace (i + 1 + Z.of_nat k) with (i + Z.of_nat (S k)) by lia. reflexivity.
Qed.

(** What a walk that found papers went through. *)
Lemma fallback_loop_some_inv (today : Z) (ds : str) (ps : list paper) (n : nat) :
  forall i log,
    loop today i n = (Ok (Some (ds, ps)), log) ->
    exists k : nat,
      (k < n)%nat
      /\ (forall j, i <= j < i + Z.of_nat k -> papers_of today j = Ok [])
      /\ papers_of today (i + Z.of_nat k) = Ok ps
      /\ ps <> []
      /\ ds = str_of today (i + Z.of_nat k)
      /\ log = map (get_of today) (zrange i (S k)).
Proof.
  induction n as [|n IH]; intros i log H; [discriminate|].
  destruct (papers_of today i) as [ps0|e] eqn:P.
  - rewrite (fallback_loop_day rt W today i n ps0 P) in H.
    destruct ps0 as [|p0 ps0].
    + destruct (loop today (i + 1) n) as [r l] eqn:L. cbn [fst snd] in H.
      injection H as -> <-.
      destruct (IH _ _ L) as (k & Hk & He & Hp & Hne & Hds & Hl).
      exists (S k).
      replace (i + Z.of_nat (S k)) with (i + 1 + Z.of_nat k) by lia.
      repeat split; try assumption; try lia.
      * intros j Hj. destruct (Z.eq_dec j i) as [->|]; [exact P | apply He; lia].
      * rewrite Hl. reflexivity.
    + injection H as <- <- <-. exists O. rewrite Z.add_0_r.
      repeat split; try assumption; try lia; try discriminate.
  - destruct (fallback_loop_failed_day today i n e P) as [E|E];
      rewrite E in H; discriminate.
Qed.

(** What a walk that found nothing went through. *)
Lemma fallback_loop_none_inv (today : Z) (n : nat) :
  forall i log,
    loop today i n = (Ok None, log) ->
    (forall j, i <= j < i + Z.of_nat n -> papers_of today j = Ok [])
    /\ log = map (get_of today) (zrange i n).
Proof.
  induction n as [|n IH]; intros i log H.
  - injection H as <-. split; [intros j Hj; lia | reflexivity].
  - destruct (papers_of today i) as [ps0|e] eqn:P.
    + rewrite (fallback_loop_day rt W today i n ps0 P) in H.
      destruct ps0 as [|p0 ps0]; [|discriminate].
      destruct (loop today (i + 1) n) as [r l] eqn:L. cbn [fst snd] in H.
      injection H as -> <-. destruct (IH _ _ L) as [He Hl]. split.
      * intros j Hj. destruct (Z.eq_dec j i) as [->|]; [exact P | apply He; lia].
      * rewrite Hl. reflexivity.
    + destruct (fallback_loop_failed_day today i n e P) as [E|E];
        rewrite E in H; discriminate.
Qed.

(** The GETs of a walk are those of the first candidates, in order. *)
Lemma fallback_loop_log (today : Z) (n : nat) :
  forall i, exists k : nat,
    (k <= n)%nat /\ snd (loop today i n) = map (get_of today) (zrange i k).
Proof.
  induction n as [|n IH]; intros i.
  - exists O. split; [lia | reflexivity].
  - destruct (papers_of today i) as [ps0|e] eqn:P.
    + rewrite (fallback_loop_day rt W today i n ps0 P).
      destruct ps0 as [|p0 ps0].
      * destruct (IH (i + 1)) as (k & Hk & Hl). exists (S k).
        split; [lia|]. cbn [snd zrange map]. now rewrite Hl.
      * exists 1%nat. split; [lia | reflexivity].
    + destruct (fallback_loop_failed_day today i n e P) as [E|E]; rewrite E.
      * exists O. split; [lia | reflexivity].
      * exists 1%nat. split; [lia | reflexivity].
Qed.

Lemma get_daily_parts (tz : str) (n today : Z) :
  today_in W tz = Ok today ->
  get_daily_papers_with_fallback rt W tz n
  = (match fst (loop today 0 (Z.to_nat (n + 1))) with
     | Ok (Some r) => Ok r
     | Ok None => Ok (_date_str rt today, [])
     | Raise e => Raise e
     end, snd (loop today 0 (Z.to_nat (n + 1)))).
Proof.
  intros H. rewrite (get_daily_unfold rt W tz n today H).
  destruct (loop today 0 (Z.to_nat (n + 1))) as [[[r|]|e] l]; unfold bind, ret;
    cbn [fst snd]; now rewrite ?app_nil_r.
Qed.

Lemma get_daily_log_bound (tz : str) (n : Z) :
  forallb is_get (snd (get_daily_papers_with_fallback rt W tz n)) = true
  /\ (List.length (snd (get_daily_papers_with_fallback rt W tz n))
      <= Z.to_nat (n + 1))%nat.
Proof.
  destruct (today_in W tz) as [today|e] eqn:T.
  - rewrite (get_daily_parts tz n today T). cbn [snd].
    destruct (fallback_loop_log today (Z.to_nat (n + 1)) 0) as (k & Hk & ->).
    rewrite length_map, zrange_length. split; [|exact Hk].
    apply forallb_forall. intros x Hx. apply in_map_iff in Hx.
    destruct Hx as (j & <- & _). reflexivity.
  - unfold get_daily_papers_with_fallback. rewrite T. split; [reflexivity|].
    cbn. lia.
Qed.

(** X9: in every world the walk logs nothing but GETs, at most
    [max(0, max_days_back + 1)] of them. *)
Theorem fallback_fetch_bound (tz : str) (n : Z) :
  forallb is_get (snd (get_daily_papers_with_fallback rt W tz n)) = true
  /\ (List.length (snd (get_daily_papers_with_fallback rt W tz n))
      <= Z.to_nat (n + 1))%nat.
Proof. exact (get_daily_log_bound tz n). Qed.

(** X10: a non-empty result of the walk is always that of the first
    non-empty candidate: the date returned is the one [k] days back
    for some [0 <= k <= max_days_back], its papers are the ones
    returned, every nearer candidate was fetched and was empty, and
    [k + 1] GETs were made. *)
Theorem fallback_result_is_first_nonempty (tz : str) (n today : Z) (ds : str)
        (ps : list paper) (log : list event) :
  today_in W tz = Ok today ->
  get_daily_papers_with_fallback rt W tz n = (Ok (ds, ps), log) ->
  ps <> [] ->
  exists k,
    0 <= k <= n
    /\ ds = str_of today k
    /\ papers_of today k = Ok ps
    /\ (forall j, 0 <= j < k -> papers_of today j = Ok [])
    /\ log = fetch_log rt today k.
Proof.
  intros T H Hne. rewrite (get_daily_parts tz n today T) in H.
  destruct (loop today 0 (Z.to_nat (n + 1))) as [[[r|]|e] l] eqn:L;
    cbn [fst snd] in H; try discriminate.
  - injection H as -> ->.
    destruct (fallback_loop_some_inv today ds ps _ _ _ L)
      as (k & Hk & He & Hp & _ & Hds & Hl).
    rewrite Z.add_0_l in *. exists (Z.of_nat k). repeat split; try assumption; try lia.
    rewrite Hl. unfold fetch_log. do 2 f_equal. lia.
  - injection H as <- <- <-. now contradiction Hne.
Qed.

(** X11: an empty result of the walk means every candidate of the
    range was fetched and was empty; the date returned is then
    today's. *)
Theorem fallback_empty_result_inv (tz : str) (n today : Z) (ds : str)
        (log : list event) :
  today_in W tz = Ok today ->
  get_daily_papers_with_fallback rt W tz n = (Ok (ds, []), log) ->
  ds = _date_str rt today
  /\ (forall j, 0 <= j <= n -> papers_of today j = Ok [])
  /\ log = fetch_log rt today n.
Proof.
  intros T H. rewrite (get_daily_parts tz n today T) in H.
  destruct (loop today 0 (Z.to_nat (n + 1))) as [[[r|]|e] l] eqn:L;
    cbn [fst snd] in H; try discriminate.
  - injection H as -> ->.
    destruct (fallback_loop_some_inv today _ _ _ _ _ L) as (k & _ & _ & _ & Hne & _).
    now contradiction Hne.
  - injection H as <- <-.
    destruct (fallback_loop_none_inv today _ _ _ L) as [He Hl].
    repeat split; [| exact Hl].
    intros j Hj. apply He. lia.
Qed.

(** X12: a range that reaches before the first day of the calendar
    does not end in an empty result: once the candidates that exist
    have been fetched and found empty, the walk fails with
    [OverflowError], without a GET for the missing day. *)
Theorem fallback_before_calendar (tz : str) (n today k : Z) :
  today_in W tz = Ok today ->
  0 <= k <= n ->
  (forall j, 0 <= j < k -> papers_of today j = Ok []) ->
  today - k < MINORDINAL ->
  get_daily_papers_with_fallback rt W tz n
  = (Raise OverflowError, fetch_log rt today (k - 1)).
Proof.
  intros T Hk He Hu. rewrite (get_daily_parts tz n today T).
  replace (Z.to_nat (n + 1)) with (Z.to_nat k + S (Z.to_nat (n - k)))%nat by lia.
  rewrite (fallback_loop_skip today (Z.to_nat k) (S (Z.to_nat (n - k))) 0)
    by (intros j Hj; apply He; lia).
  rewrite Z.add_0_l, Z2Nat.id by lia.
  cbn [fallback_loop]. rewrite (date_minus_days_underflow _ _ Hu).
  cbn. rewrite app_nil_r. unfold fetch_log.
  now replace (Z.to_nat (k - 1 + 1)) with (Z.to_nat k) by lia.
Qed.

End FetcherMore.

Lemma fallback_result_is_first_nonempty_witness :
  exists k,
    0 <= k <= 3
    /\ lit "2026-10-31" = day_str Stub.rt Examples.today k
    /\ day_papers Stub.rt Examples.world_third_day Examples.today k
       = Ok [Examples.the_paper]
    /\ (forall j, 0 <= j < k ->
        day_papers Stub.rt Examples.world_third_day Examples.today j = Ok [])
    /\ fetch_log Stub.rt Examples.today 3 = fetch_log Stub.rt Examples.today k.
Proof.
  apply (fallback_result_is_first_nonempty Stub.rt Examples.world_third_day
           Examples.tz 3 Examples.today).
  - reflexivity.
  - reflexivity.
  - discriminate.
Defined.

Lemma fallback_empty_result_inv_witness :
  lit "2026-11-03" = _date_str Stub.rt Examples.today
  /\ (forall j, 0 <= j <= 3 ->
      day_papers Stub.rt Examples.world_all_empty Examples.today j = Ok [])
  /\ fetch_log Stub.rt Examples.today 3 = fetch_log Stub.rt Examples.today 3.
Proof.
  apply (fallback_empty_result_inv Stub.rt Examples.world_all_empty Examples.tz 3
           Examples.today).
  - reflexivity.
  - reflexivity.
Defined.

Lemma fallback_before_calendar_witness :
  get_daily_papers_with_fallback Stub.rt Cases.world_year_one Examples.tz 5
  = (Raise OverflowError, fetch_log Stub.rt 2 (2 - 1)).
Proof.
  apply (fallback_before_calendar Stub.rt Cases.world_year_one Examples.tz 5 2 2).
  - reflexivity.
  - lia.
  - intros j Hj. assert (j = 0 \/ j = 1) as [->| ->] by lia; reflexivity.
  - reflexivity.
Defined.

(** The run of the example: two GETs, for the two days that exist. *)
Example fallback_year_one_run :
  get_daily_papers_with_fallback Stub.rt Cases.world_year_one Examples.tz 5
  = (Raise OverflowError,
     [EvGet (fetch_url (lit "0001-01-02")); EvGet (fetch_url (lit "0001-01-01"))]).
Proof. reflexivity. Qed.

(** ** The renderers, for every paper list *)

Section RendererMore.
Variable rt : Runtime.

Lemma paper_lines_block (f : str * str * str * str) :
  paper_lines rt (str_paper f) = block_of f.
Proof. destruct f as [[[t a] b] u]. apply paper_lines_str. Qed.

(** X13: the plain-text form of an empty digest is exactly two lines,
    the header and the placeholder, for a date without line feed. *)
Theorem text_empty_digest_two_lines (date_str : str) :
  has_LF date_str = false ->
  split_on LF (build_email_text rt date_str [])
  = [header_line date_str; no_papers_line date_str].
Proof.
  intros H. rewrite build_email_text_lines. apply split_on_join.
  constructor; [|constructor; [|constructor]].
  - unfold header_line. now rewrite has_LF_app, H.
  - unfold no_papers_line. now rewrite has_LF_app, H.
Qed.

(** X14: the plain-text form of a non-empty list of string records is
    the header followed by one block per paper, in input order, joined
    by line feeds; a block is the title line and then a line for each
    non-empty field among authors, abstract and link, in that order,
    an empty field giving no line. *)
Theorem text_digest_blocks (date_str : str) (f : str * str * str * str)
        (fs : list (str * str * str * str)) :
  build_email_text rt date_str (map str_paper (f :: fs))
  = join [LF] (header_line date_str :: List.concat (map block_of (f :: fs))).
Proof.
  rewrite build_email_text_lines. cbn [map]. do 3 f_equal.
  rewrite paper_lines_block. f_equal.
  rewrite map_map. apply map_ext. intros x. apply paper_lines_block.
Qed.

(** X15: the rich-text document is always the same frame around a
    body that is the placeholder block when there is no paper and
    otherwise the cards of the papers, one each, in input order. *)
Theorem html_document_shape (date_str : str) (papers : list paper) :
  build_email_html rt date_str papers
  = html_before_body date_str
    ++ match papers with
       | [] => empty_block date_str
       | _ :: _ => List.concat (map (card rt) papers)
       end
    ++ html_after_body.
Proof.
  destruct papers as [|p papers]; [reflexivity|]. apply build_email_html_cards.
Qed.

End RendererMore.

Lemma text_empty_digest_two_lines_witness :
  split_on LF (build_email_text Stub.rt Examples.date [])
  = [header_line Examples.date; no_papers_line Examples.date].
Proof.
  apply (text_empty_digest_two_lines Stub.rt Examples.date). reflexivity.
Defined.

(** ** The recipient list *)

Lemma lstrip_head (s : str) :
  match lstrip s with
  | c :: _ => is_space c = false
  | [] => True
  end.
Proof.
  induction s as [|c s IH]; cbn [lstrip]; [exact I|].
  destruct (is_space c) eqn:E; [exact IH | exact E].
Qed.

Lemma lstrip_suffix (s : str) : exists sp, s = sp ++ lstrip s.
Proof.
  induction s as [|c s [sp IH]]; cbn [lstrip]; [now exists []|].
  destruct (is_space c).
  - exists (c :: sp). cbn [app]. now f_equal.
  - now exists [].
Qed.

Lemma lstrip_Forall (P : N -> Prop) (s : str) : Forall P s -> Forall P (lstrip s).
Proof.
  intros H. destruct (lstrip_suffix s) as [sp E]. rewrite E in H.
  now apply Forall_app in H.
Qed.

Lemma strip_Forall (P : N -> Prop) (s : str) : Forall P s -> Forall P (strip s).
Proof.
  intros H. unfold strip.
  now apply Forall_rev, lstrip_Forall, Forall_rev, lstrip_Forall.
Qed.

Lemma strip_trimmed (x : str) : trimmed (strip x) = true.
Proof.
  unfold strip. pose proof (lstrip_head x) as Hz.
  destruct (lstrip_suffix (rev (lstrip x))) as [sp E].
  pose proof (lstrip_head (rev (lstrip x))) as Hw.
  destruct (lstrip (rev (lstrip x))) as [|c w]; [reflexivity|].
  apply (f_equal (@rev N)) in E. rewrite rev_involutive, rev_app_distr in E.
  cbn [rev] in E |- *.
  destruct (rev w ++ [c]) as [|h t] eqn:R; [now destruct (rev w)|].
  unfold trimmed. rewrite <- R, last_last, Hw.
  rewrite E in Hz. cbn [app] in Hz. now rewrite Hz.
Qed.

Lemma strip_fixed (r : str) : trimmed r = true -> strip r = r.
Proof.
  destruct r as [|c r]; [reflexivity|]. unfold trimmed, strip. intros H.
  apply andb_prop in H. destruct H as [Hc Hl]. apply negb_true_iff in Hc, Hl.
  cbn [lstrip]. rewrite Hc.
  destruct (rev (c :: r)) as [|l t] eqn:R.
  - apply (f_equal (@rev N)) in R. now rewrite rev_involutive in R.
  - assert (E : c :: r = rev t ++ [l]).
    { rewrite <- (rev_involutive (c :: r)), R. reflexivity. }
    rewrite E, last_last in Hl. cbn [lstrip]. rewrite Hl. now rewrite <- R, rev_involutive.
Qed.

Lemma strip_space_cons (c : N) (s : str) : is_space c = true -> strip (c :: s) = strip s.
Proof. intros H. unfold strip. cbn [lstrip]. now rewrite H. Qed.

Lemma split_on_nonempty (sep : N) (s : str) : split_on sep s <> [].
Proof.
  destruct s as [|c s]; cbn [split_on]; [discriminate|].
  destruct (N.eqb c sep); [discriminate|]. destruct (split_on sep s); discriminate.
Qed.

Lemma split_on_app_sep (sep : N) (a b : str) :
  split_on sep (a ++ sep :: b) = split_on sep a ++ split_on sep b.
Proof.
  induction a as [|c a IH]; cbn [app split_on].
  - now rewrite N.eqb_refl.
  - destruct (N.eqb c sep); [now rewrite IH|].
    rewrite IH. pose proof (split_on_nonempty sep a) as Hn.
    destruct (split_on sep a); [contradiction | reflexivity].
Qed.

Lemma split_on_pieces (P : N -> Prop) (sep : N) (s : str) :
  Forall P s -> Forall (Forall P) (split_on sep s).
Proof.
  induction 1 as [|c s Hc _ IH]; cbn [split_on]; [repeat constructor|].
  destruct (N.eqb c sep); [now constructor|].
  destruct (split_on sep s) as [|w ws]; [repeat constructor; assumption|].
  inversion IH; subst. constructor; [now constructor | assumption].
Qed.

Lemma split_on_pieces_no_sep (sep : N) (s : str) :
  Forall (Forall (fun c => N.eqb c sep = false)) (split_on sep s).
Proof.
  induction s as [|c s IH]; cbn [split_on]; [repeat constructor|].
  destruct (N.eqb c sep) eqn:E; [now constructor|].
  destruct (split_on sep s) as [|w ws]; [repeat constructor; assumption|].
  inversion IH; subst. constructor; [now constructor | assumption].
Qed.

Lemma split_on_whole (sep : N) (s : str) :
  Forall (fun c => N.eqb c sep = false) s -> split_on sep s = [s].
Proof.
  induction 1 as [|c s Hc _ IH]; cbn [split_on]; [reflexivity|].
  now rewrite Hc, IH.
Qed.

Lemma replace_char_no_semicolon (s : str) :
  Forall (fun c => N.eqb c 59 = false) (replace_char 59 44 s).
Proof.
  unfold replace_char. apply Forall_map, Forall_forall. intros c _.
  destruct (N.eqb c 59) eqn:E; [reflexivity | exact E].
Qed.

Lemma replace_char_fixed (s : str) :
  Forall (fun c => N.eqb c 59 = false) s -> replace_char 59 44 s = s.
Proof.
  unfold replace_char. induction 1 as [|c s Hc _ IH]; cbn [map]; [reflexivity|].
  now rewrite Hc, IH.
Qed.

Lemma no_sep_Forall (r : str) :
  no_sep r = true
  <-> Forall (fun c => N.eqb c 44 = false /\ N.eqb c 59 = false) r.
Proof.
  unfold no_sep. rewrite negb_true_iff. induction r as [|c r IH]; cbn [existsb].
  - split; [constructor | reflexivity].
  - rewrite orb_false_iff, orb_false_iff, IH. split.
    + intros [H1 H2]. now constructor.
    + intros H. inversion H; subst. tauto.
Qed.

Lemma recipients_clean (raw : str) : Forall clean_recipient (parse_recipients raw).
Proof.
  unfold parse_recipients. apply Forall_forall. intros r Hr.
  apply in_map_iff in Hr. destruct Hr as (x & <- & Hx).
  apply filter_In in Hx. destruct Hx as [Hx Hne].
  repeat split.
  - intros E. now rewrite E in Hne.
  - apply strip_trimmed.
  - apply no_sep_Forall, strip_Forall.
    pose proof (split_on_pieces_no_sep 44 (replace_char 59 44 raw)) as H1.
    pose proof (split_on_pieces _ 44 _ (replace_char_no_semicolon raw)) as H2.
    rewrite Forall_forall in H1, H2. specialize (H1 x Hx). specialize (H2 x Hx).
    rewrite Forall_forall in *. intros c Hc. split; [now apply H1 | now apply H2].
Qed.

Lemma parse_recipients_sep (a b : str) :
  parse_recipients (a ++ 44%N :: b) = parse_recipients a ++ parse_recipients b.
Proof.
  unfold parse_recipients, replace_char. rewrite map_app. cbn [map].
  change (if N.eqb 44 59 then 44%N else 44%N) with 44%N.
  now rewrite split_on_app_sep, filter_app, map_app.
Qed.

Lemma parse_recipients_space (y : str) :
  parse_recipients (32%N :: y) = parse_recipients y.
Proof.
  unfold parse_recipients, replace_char. cbn [map].
  change (if N.eqb 32 59 then 44%N else 32%N) with 32%N.
  cbn [split_on]. change (N.eqb 32 44) with false. cbv iota.
  pose proof (split_on_nonempty 44 (map (fun c => if N.eqb c 59 then 44%N else c) y)) as Hn.
  destruct (split_on 44 _) as [|w ws]; [contradiction|].
  cbn [filter]. rewrite (strip_space_cons 32 w) by reflexivity.
  destruct (nonempty (strip w)); [|reflexivity].
  cbn [map]. now rewrite (strip_space_cons 32 w) by reflexivity.
Qed.

Lemma parse_recipients_one (r : str) : clean_recipient r -> parse_recipients r = [r].
Proof.
  intros (Hne & Ht & Hs). apply no_sep_Forall in Hs.
  unfold parse_recipients.
  rewrite replace_char_fixed by (eapply Forall_impl; [|exact Hs]; now intros c [_ H]).
  rewrite split_on_whole by (eapply Forall_impl; [|exact Hs]; now intros c [H _]).
  cbn [filter]. rewrite (strip_fixed r Ht).
  destruct r as [|c r]; [contradiction|]. cbn [nonempty map].
  now rewrite (strip_fixed _ Ht).
Qed.

Lemma parse_recipients_joined (rs : list str) :
  Forall clean_recipient rs -> parse_recipients (join (lit ", ") rs) = rs.
Proof.
  induction 1 as [|r rs Hr Hrs IH]; [reflexivity|].
  destruct rs as [|r2 rs]; [now apply parse_recipients_one|].
  change (join (lit ", ") (r :: r2 :: rs))
    with (r ++ 44%N :: 32%N :: join (lit ", ") (r2 :: rs)).
  now rewrite parse_recipients_sep, parse_recipients_space, IH, parse_recipients_one.
Qed.

(** X16: every recipient the parser returns is non-empty, carries no
    white space at either end, and contains neither a comma nor a
    semicolon. *)
Theorem parse_recipients_clean (raw : str) :
  Forall clean_recipient (parse_recipients raw).
Proof. exact (recipients_clean raw). Qed.

(** X17: a comma and a semicolon separate alike, and parsing
    distributes over them: the recipients of [a], a separator and [b]
    are those of [a] followed by those of [b]. *)
Theorem parse_recipients_app (a b : str) :
  parse_recipients (a ++ 44%N :: b) = parse_recipients a ++ parse_recipients b
  /\ parse_recipients (a ++ 59%N :: b) = parse_recipients a ++ parse_recipients b.
Proof.
  split; [apply parse_recipients_sep|].
  rewrite <- parse_recipients_sep.
  unfold parse_recipients, replace_char. rewrite !map_app. reflexivity.
Qed.

(** X18: the [To] header, which joins the recipients with [", "],
    parses back to the same recipient list. *)
Theorem parse_recipients_of_header (raw : str) :
  parse_recipients (join (lit ", ") (parse_recipients raw)) = parse_recipients raw.
Proof. apply parse_recipients_joined, recipients_clean. Qed.

(** The run of an example: separators, blanks and empty entries mixed. *)
Example parse_recipients_run :
  parse_recipients (lit " a@x.org ;b@y.org,, ; c@z.org ")
  = [lit "a@x.org"; lit "b@y.org"; lit "c@z.org"].
Proof. reflexivity. Qed.

(** ** The delivery *)

Lemma nonempty_true (s : str) : s <> [] -> nonempty s = true.
Proof. destruct s; [contradiction | reflexivity]. Qed.

Section DeliveryFacts.
Variable rt : Runtime.
Variable W : World.

(** Past the check of line 142 and the two [MIMEText] calls, when every
    setting is present and both bodies encode. *)
Lemma send_email_complete (port : Z) (subject html_body text_body : str) :
  config_complete W rt port ->
  utf8_encodable text_body = true ->
  utf8_encodable html_body = true ->
  send_email rt W subject html_body text_body
  = (let msg := message_of W subject html_body text_body in
     let login := smtp_call W (login_cmd W) in
     let send :=
       bind (lift (as_string rt msg)) (fun _ =>
       smtp_call W (SmtpSendmail (mail_from_of W) (recipients_of W) msg)) in
     if port =? 465 then
       with_server W (SmtpSSLConnect (getenv W (lit "SMTP_HOST") []) port)
         (bind login (fun _ => send))
     else
       with_server W (SmtpConnect (getenv W (lit "SMTP_HOST") []) port)
         (bind (smtp_call W SmtpEhlo) (fun _ =>
          bind (try_pass (bind (smtp_call W SmtpStarttls)
                               (fun _ => smtp_call W SmtpEhlo))) (fun _ =>
          bind login (fun _ => send))))).
Proof.
  intros (Hp & Hz & Hh & Hu & Hw & Hr) Ht Hb. unfold send_email.
  rewrite Hp, bind_lift_ok.
  rewrite (nonempty_true _ Hh), (nonempty_true _ Hu), (nonempty_true _ Hw).
  apply Z.eqb_neq in Hz. rewrite Hz. unfold recipients_of in Hr.
  cbn [negb orb].
  destruct (parse_recipients (getenv W (lit "MAIL_TO") [])) eqn:R; [contradiction|].
  unfold mime_text. rewrite Ht, Hb, !bind_lift_ok.
  unfold login_cmd, message_of, mail_from_of, recipients_of. rewrite R. reflexivity.
Qed.

Lemma send_email_all_accepted (port : Z) (subject html_body text_body : str) :
  config_complete W rt port ->
  utf8_encodable text_body = true ->
  utf8_encodable html_body = true ->
  as_string_error rt (message_of W subject html_body text_body) = None ->
  (forall c, smtp_reply W c = None) ->
  send_email rt W subject html_body text_body
  = (Ok tt, delivery_log W port subject html_body text_body).
Proof.
  intros C Ht Hb S H. rewrite (send_email_complete port _ _ _ C Ht Hb).
  unfold delivery_log, with_server, smtp_call, bind, try_pass, lift, as_string.
  rewrite S, !H. destruct (port =? 465); reflexivity.
Qed.

(** Whatever the settings and the server, [send_email] logs mail
    calls only. *)
Lemma send_email_smtp_only (subject html_body text_body : str) :
  forallb is_smtp (snd (send_email rt W subject html_body text_body)) = true.
Proof.
  unfold send_email. destruct (read_port rt W) as [z|e]; [|reflexivity].
  rewrite bind_lift_ok.
  match goal with |- context [if ?c then raise _ else _] => destruct c end;
    [reflexivity|].
  unfold mime_text.
  destruct (utf8_encodable text_body); [rewrite bind_lift_ok | reflexivity].
  destruct (utf8_encodable html_body); [rewrite bind_lift_ok | reflexivity].
  destruct (z =? 465); unfold with_server, smtp_call, bind, try_pass, lift, as_string;
    repeat match goal with
           | |- context [smtp_reply W ?c] => destruct (smtp_reply W c)
           | |- context [as_string_error rt ?m] => destruct (as_string_error rt m)
           end; reflexivity.
Qed.

(** With a setting missing nothing is logged and the call fails. *)
Lemma send_email_incomplete_fails (subject html_body text_body : str) :
  py_int rt (lit "0") = Some 0 ->
  config_incomplete W = true ->
  exists e, send_email rt W subject html_body text_body = (Raise e, []).
Proof.
  intros I0 H. unfold send_email.
  destruct (read_port rt W) as [z|e] eqn:P; [|now exists e].
  rewrite bind_lift_ok. exists (RuntimeError zh_config_incomplete).
  match goal with |- (if ?c then _ else _) = _ => assert (C : c = true) end;
    [|now rewrite C].
  unfold config_incomplete in H.
  repeat (apply orb_true_iff in H; destruct H as [H|H]).
  - now rewrite (unset_getenv W _ H).
  - rewrite (read_port_unset rt W I0 H) in P. injection P as <-.
    cbn [Z.eqb]. now rewrite orb_true_r.
  - rewrite (unset_getenv W _ H). cbn [nonempty negb]. now rewrite !orb_true_r.
  - rewrite (unset_getenv W _ H). cbn [nonempty negb]. now rewrite !orb_true_r.
  - rewrite H. now rewrite !orb_true_r.
Qed.

(** X19: with every setting present, bodies that encode as UTF-8, a
    message the generator serializes and a server that accepts every
    call, the delivery succeeds and its calls are, in order: the
    connection (implicit TLS on port 465; otherwise a plain connection
    followed by EHLO, STARTTLS, EHLO), the login, one [sendmail] and
    QUIT. The message carries the subject as given, the sender
    ([MAIL_FROM], or the username when that is unset or empty), the
    recipients joined with [", "], and the plain-text part before the
    rich-text part. *)
Theorem send_email_delivers (port : Z) (subject html_body text_body : str) :
  config_complete W rt port ->
  utf8_encodable text_body = true ->
  utf8_encodable html_body = true ->
  as_string_error rt (message_of W subject html_body text_body) = None ->
  (forall c, smtp_reply W c = None) ->
  send_email rt W subject html_body text_body
  = (Ok tt, delivery_log W port subject html_body text_body).
Proof. apply send_email_all_accepted. Qed.

(** X20: on a port other than 465 a server that refuses STARTTLS does
    not stop the delivery of a message that encodes and serializes:
    the failure is swallowed, the second EHLO is skipped, and login
    and [sendmail] follow on the unencrypted connection. *)
Theorem send_email_starttls_refused (port : Z) (e : exn)
        (subject html_body text_body : str) :
  config_complete W rt port ->
  utf8_encodable text_body = true ->
  utf8_encodable html_body = true ->
  as_string_error rt (message_of W subject html_body text_body) = None ->
  port <> 465 ->
  smtp_reply W SmtpStarttls = Some e ->
  (forall c, c <> SmtpStarttls -> smtp_reply W c = None) ->
  send_email rt W subject html_body text_body
  = (Ok tt,
     [EvSmtp (SmtpConnect (getenv W (lit "SMTP_HOST") []) port); EvSmtp SmtpEhlo;
      EvSmtp SmtpStarttls; EvSmtp (login_cmd W);
      EvSmtp (SmtpSendmail (mail_from_of W) (recipients_of W)
                (message_of W subject html_body text_body));
      EvSmtp SmtpQuit]).
Proof.
  intros C Hb1 Hb2 S Hp Ht Ho. rewrite (send_email_complete port _ _ _ C Hb1 Hb2).
  apply Z.eqb_neq in Hp. cbv zeta. rewrite Hp.
  unfold with_server, smtp_call, bind, try_pass, login_cmd, lift, as_string.
  rewrite S, Ht, !Ho by discriminate. reflexivity.
Qed.

(** X21: when the server rejects the login, the call fails and no
    [sendmail] is ever issued, whatever the settings and whatever the
    server answers to the other calls. *)
Theorem send_email_login_rejected (e : exn) (subject html_body text_body : str) :
  smtp_reply W (login_cmd W) = Some e ->
  forallb (fun ev => negb (is_sendmail ev))
    (snd (send_email rt W subject html_body text_body)) = true
  /\ exists e', fst (send_email rt W subject html_body text_body) = Raise e'.
Proof.
  unfold login_cmd. intros H. unfold send_email.
  destruct (read_port rt W) as [z|e0]; [|split; [reflexivity | eexists; reflexivity]].
  rewrite bind_lift_ok.
  match goal with |- context [if ?c then raise _ else _] => destruct c end;
    [split; [reflexivity | eexists; reflexivity]|].
  unfold mime_text.
  destruct (utf8_encodable text_body);
    [rewrite bind_lift_ok | split; [reflexivity | eexists; reflexivity]].
  destruct (utf8_encodable html_body);
    [rewrite bind_lift_ok | split; [reflexivity | eexists; reflexivity]].
  destruct (z =? 465); unfold with_server, smtp_call, bind, try_pass; rewrite H;
    repeat match goal with
           | |- context [smtp_reply W ?c] => destruct (smtp_reply W c)
           end; (split; [reflexivity | eexists; reflexivity]).
Qed.

(** X22: when the connection cannot be opened for a message whose
    bodies encode, the call fails with that exception after the one
    connection attempt: no EHLO, no login, no [sendmail], and no QUIT
    either. *)
Theorem send_email_connect_refused (port : Z) (e : exn)
        (subject html_body text_body : str) :
  config_complete W rt port ->
  utf8_encodable text_body = true ->
  utf8_encodable html_body = true ->
  smtp_reply W (connect_cmd W port) = Some e ->
  send_email rt W subject html_body text_body
  = (Raise e, [EvSmtp (connect_cmd W port)]).
Proof.
  intros C Hb1 Hb2 H. rewrite (send_email_complete port _ _ _ C Hb1 Hb2).
  unfold connect_cmd in *. cbv zeta.
  destruct (port =? 465); unfold with_server, smtp_call, bind; now rewrite H.
Qed.



(** X29: when the generator refuses the message (line 157 or 167
    evaluates [msg.as_string()] after the login), the call fails with
    that exception on a server that accepts every call: the login has
    been made, no [sendmail] is issued, and QUIT closes the session. *)
Theorem send_email_unserializable (port : Z) (e : exn)
        (subject html_body text_body : str) :
  config_complete W rt port ->
  utf8_encodable text_body = true ->
  utf8_encodable html_body = true ->
  as_string_error rt (message_of W subject html_body text_body) = Some e ->
  (forall c, smtp_reply W c = None) ->
  send_email rt W subject html_body text_body
  = (Raise e,
     (if port =? 465
      then [EvSmtp (connect_cmd W port)]
      else [EvSmtp (connect_cmd W port); EvSmtp SmtpEhlo; EvSmtp SmtpStarttls;
            EvSmtp SmtpEhlo])
     ++ [EvSmtp (login_cmd W); EvSmtp SmtpQuit]).
Proof.
  intros C Hb1 Hb2 S H. rewrite (send_email_complete port _ _ _ C Hb1 Hb2).
  unfold connect_cmd, with_server, smtp_call, bind, try_pass, lift, as_string.
  rewrite S, !H. destruct (port =? 465); reflexivity.
Qed.

End DeliveryFacts.

Lemma send_email_delivers_witness :
  send_email Stub.rt (Cases.mail_world Cases.env_ssl (fun _ => None))
    (lit "s") (lit "h") (lit "t")
  = (Ok tt,
     delivery_log (Cases.mail_world Cases.env_ssl (fun _ => None)) 465
       (lit "s") (lit "h") (lit "t")).
Proof.
  apply (send_email_delivers Stub.rt (Cases.mail_world Cases.env_ssl (fun _ => None)) 465).
  - repeat split; discriminate.
  - reflexivity.
  - reflexivity.
  - reflexivity.
  - reflexivity.
Defined.

(** The run of the example on port 465: no EHLO and no STARTTLS; the
    sender is [MAIL_FROM]. *)
Example send_email_ssl_run :
  exists msg,
    send_email Stub.rt (Cases.mail_world Cases.env_ssl (fun _ => None))
      (lit "s") (lit "h") (lit "t")
    = (Ok tt,
       [EvSmtp (SmtpSSLConnect (lit "smtp.example.org") 465);
        EvSmtp (SmtpLogin (lit "digest") (lit "secret"));
        EvSmtp (SmtpSendmail (lit "papers@example.org") [lit "ada@example.org"] msg);
        EvSmtp SmtpQuit])
    /\ msg_parts msg = [(lit "plain", lit "t"); (lit "html", lit "h")]
    /\ msg_from msg = lit "papers@example.org".
Proof. eexists. repeat split. Qed.

Lemma send_email_starttls_refused_witness :
  send_email Stub.rt (Cases.mail_world Examples.env_complete Cases.no_tls)
    (lit "s") (lit "h") (lit "t")
  = (Ok tt,
     [EvSmtp (SmtpConnect
                (getenv (Cases.mail_world Examples.env_complete Cases.no_tls)
                   (lit "SMTP_HOST") []) 587);
      EvSmtp SmtpEhlo; EvSmtp SmtpStarttls;
      EvSmtp (login_cmd (Cases.mail_world Examples.env_complete Cases.no_tls));
      EvSmtp (SmtpSendmail
                (mail_from_of (Cases.mail_world Examples.env_complete Cases.no_tls))
                (recipients_of (Cases.mail_world Examples.env_complete Cases.no_tls))
                (message_of (Cases.mail_world Examples.env_complete Cases.no_tls)
                   (lit "s") (lit "h") (lit "t")));
      EvSmtp SmtpQuit]).
Proof.
  apply (send_email_starttls_refused Stub.rt
           (Cases.mail_world Examples.env_complete Cases.no_tls) 587
           (SMTPException (lit "starttls"))).
  - repeat split; discriminate.
  - reflexivity.
  - reflexivity.
  - reflexivity.
  - lia.
  - reflexivity.
  - intros c Hc. destruct c; try reflexivity. now contradiction Hc.
Defined.

Lemma send_email_login_rejected_witness :
  forallb (fun ev => negb (is_sendmail ev))
    (snd (send_email Stub.rt (Cases.mail_world Examples.env_complete Cases.no_login)
            (lit "s") (lit "h") (lit "t"))) = true
  /\ exists e',
      fst (send_email Stub.rt (Cases.mail_world Examples.env_complete Cases.no_login)
             (lit "s") (lit "h") (lit "t")) = Raise e'.
Proof.
  apply (send_email_login_rejected Stub.rt
           (Cases.mail_world Examples.env_complete Cases.no_login)
           (SMTPException (lit "login"))).
  reflexivity.
Defined.

(** The run of the example: QUIT follows the failed login. *)
Example send_email_no_login_run :
  send_email Stub.rt (Cases.mail_world Examples.env_complete Cases.no_login)
    (lit "s") (lit "h") (lit "t")
  = (Raise (SMTPException (lit "login")),
     [EvSmtp (SmtpConnect (lit "smtp.example.org") 587); EvSmtp SmtpEhlo;
      EvSmtp SmtpStarttls; EvSmtp SmtpEhlo;
      EvSmtp (SmtpLogin (lit "digest") (lit "secret")); EvSmtp SmtpQuit]).
Proof. reflexivity. Qed.

Lemma send_email_connect_refused_witness :
  send_email Stub.rt (Cases.mail_world Examples.env_complete Cases.unreachable)
    (lit "s") (lit "h") (lit "t")
  = (Raise (SMTPException (lit "connect")),
     [EvSmtp (connect_cmd (Cases.mail_world Examples.env_complete Cases.unreachable) 587)]).
Proof.
  apply (send_email_connect_refused Stub.rt
           (Cases.mail_world Examples.env_complete Cases.unreachable) 587).
  - repeat split; discriminate.
  - reflexivity.
  - reflexivity.
  - reflexivity.
Defined.


Lemma send_email_unserializable_witness :
  send_email Stub.rt (Cases.mail_world Examples.env_complete (fun _ => None))
    Cases.two_line_subject (lit "h") (lit "t")
  = (Raise MessageError,
     (if 587 =? 465
      then [EvSmtp (connect_cmd (Cases.mail_world Examples.env_complete (fun _ => None))
                      587)]
      else [EvSmtp (connect_cmd (Cases.mail_world Examples.env_complete (fun _ => None))
                      587);
            EvSmtp SmtpEhlo; EvSmtp SmtpStarttls; EvSmtp SmtpEhlo])
     ++ [EvSmtp (login_cmd (Cases.mail_world Examples.env_complete (fun _ => None)));
         EvSmtp SmtpQuit]).
Proof.
  apply (send_email_unserializable Stub.rt
           (Cases.mail_world Examples.env_complete (fun _ => None)) 587).
  - repeat split; discriminate.
  - reflexivity.
  - reflexivity.
  - reflexivity.
  - reflexivity.
Defined.

(** The run of the example: the session is opened and closed, and
    nothing is sent. *)
Example send_email_two_line_subject_run :
  send_email Stub.rt (Cases.mail_world Examples.env_complete (fun _ => None))
    Cases.two_line_subject (lit "h") (lit "t")
  = (Raise MessageError,
     [EvSmtp (SmtpConnect (lit "smtp.example.org") 587); EvSmtp SmtpEhlo;
      EvSmtp SmtpStarttls; EvSmtp SmtpEhlo;
      EvSmtp (SmtpLogin (lit "digest") (lit "secret")); EvSmtp SmtpQuit]).
Proof. reflexivity. Qed.

(** ** The entry point *)

Lemma forallb_is_get_not_smtp (l : list event) :
  forallb is_get l = true -> forallb (fun ev => negb (is_smtp ev)) l = true.
Proof.
  intros H. rewrite forallb_forall in *. intros ev Hev.
  specialize (H ev Hev). now destruct ev.
Qed.

Section MainFacts.
Variable rt : Runtime.
Variable W : World.
Variable stamp_in : str -> result str.

Local Abbreviation run := (main rt W stamp_in).
Local Abbreviation input := (digest_input rt W).

(** The fetch phase logs GETs only. *)
Lemma digest_input_gets (a : Args) : forallb is_get (snd (input a)) = true.
Proof.
  unfold digest_input. destruct (arg_date a) as [|c d].
  - apply get_daily_log_bound.
  - rewrite fetch_papers_for_date_eq. unfold bind, ret.
    destruct (rbind _ _); reflexivity.
Qed.

(** The digest run, phase by phase. *)
Lemma main_digest (a : Args) :
  arg_test a = false ->
  run a
  = match input a with
    | (Ok dp, l) =>
        let sent :=
          send_email rt W (strip (arg_subject_prefix a ++ header_line (fst dp)))
            (build_email_html rt (fst dp) (snd dp))
            (build_email_text rt (fst dp) (snd dp)) in
        (fst sent, l ++ snd sent)
    | (Raise e, l) => (Raise e, l)
    end.
Proof.
  intros T. unfold main. rewrite T. unfold bind.
  destruct (input a) as [[dp|e] l]; [|reflexivity].
  now destruct (send_email _ _ _ _ _).
Qed.

(** X23: given an explicit date, a digest run makes exactly one GET,
    for that date and before any mail call, whatever the timezone and
    the fallback range, and also when that date has no papers or the
    request fails: there is no fallback walk. *)
Theorem main_explicit_date_single_get (a : Args) :
  arg_test a = false ->
  arg_date a <> [] ->
  exists rest,
    snd (run a) = EvGet (fetch_url (arg_date a)) :: rest
    /\ forallb is_smtp rest = true.
Proof.
  intros T D. rewrite (main_digest a T). unfold digest_input.
  destruct (arg_date a) as [|c d] eqn:E; [contradiction|].
  rewrite fetch_papers_for_date_eq. unfold bind, ret.
  destruct (rbind _ _) as [ps|e].
  - eexists. split; [reflexivity|]. cbn [app fst snd]. apply send_email_smtp_only.
  - exists []. split; reflexivity.
Qed.

(** X24: when the fetch phase of a digest run fails, the run fails
    with the same exception, no mail call is made at all, and the
    process exits with status 1. *)
Theorem main_fetch_failure_sends_nothing (a : Args) (e : exn) :
  arg_test a = false ->
  fst (input a) = Raise e ->
  run a = (Raise e, snd (input a))
  /\ forallb (fun ev => negb (is_smtp ev)) (snd (run a)) = true
  /\ exit_status rt W stamp_in a = 1.
Proof.
  intros T H. unfold exit_status. rewrite (main_digest a T).
  pose proof (digest_input_gets a) as G.
  destruct (input a) as [[dp|e'] l]; cbn [fst snd] in *; [discriminate|].
  injection H as <-. repeat split. now apply forallb_is_get_not_smtp.
Qed.

(** X25: a self-test run never contacts the API: it logs mail calls
    only, whatever the date and fallback arguments. *)
Theorem main_selftest_no_fetch (a : Args) :
  arg_test a = true -> forallb is_smtp (snd (run a)) = true.
Proof.
  intros T. unfold main. rewrite T.
  destruct (stamp_in (arg_timezone a)) as [ds|e]; [|reflexivity].
  rewrite bind_lift_ok. apply send_email_smtp_only.
Qed.

(** X26: the mail settings are only checked after the fetch phase: a
    digest run with a setting missing still makes every GET of that
    phase, then fails without any mail call. *)
Theorem main_incomplete_config_after_fetch (a : Args) (dp : str * list paper)
        (l : list event) :
  arg_test a = false ->
  py_int rt (lit "0") = Some 0 ->
  config_incomplete W = true ->
  input a = (Ok dp, l) ->
  exists e, run a = (Raise e, l).
Proof.
  intros T I0 C H. rewrite (main_digest a T), H. cbv zeta.
  destruct (send_email_incomplete_fails rt W
              (strip (arg_subject_prefix a ++ header_line (fst dp)))
              (build_email_html rt (fst dp) (snd dp))
              (build_email_text rt (fst dp) (snd dp)) I0 C) as [e E].
  exists e. rewrite E. cbn [fst snd]. now rewrite app_nil_r.
Qed.

(** X27: a digest run whose fetch phase returns a date and a paper
    list, with complete settings, renderings that encode as UTF-8, a
    message the generator serializes and a server that accepts every
    call, succeeds; after the GETs of the fetch phase it makes the
    calls of one delivery, whose subject is the prefix followed by
    "Hugging Face Daily Papers - " and the date, stripped of
    surrounding white space, and whose bodies are the two renderings
    of that date and list. An empty list is mailed like any other. *)
Theorem main_delivers_digest (a : Args) (ds : str) (ps : list paper)
        (l : list event) (port : Z) :
  arg_test a = false ->
  input a = (Ok (ds, ps), l) ->
  config_complete W rt port ->
  utf8_encodable (build_email_text rt ds ps) = true ->
  utf8_encodable (build_email_html rt ds ps) = true ->
  as_string_error rt
    (message_of W (strip (arg_subject_prefix a ++ header_line ds))
       (build_email_html rt ds ps) (build_email_text rt ds ps)) = None ->
  (forall c, smtp_reply W c = None) ->
  run a
  = (Ok tt,
     l ++ delivery_log W port (strip (arg_subject_prefix a ++ header_line ds))
            (build_email_html rt ds ps) (build_email_text rt ds ps)).
Proof.
  intros T H C Ht Hh S R. rewrite (main_digest a T), H. cbv zeta. cbn [fst snd].
  now rewrite (send_email_all_accepted rt W port _ _ _ C Ht Hh S R).
Qed.


End MainFacts.

Lemma main_explicit_date_single_get_witness :
  exists rest,
    snd (main Stub.rt Cases.world_ready Cases.stamp Cases.args_date)
    = EvGet (fetch_url (arg_date Cases.args_date)) :: rest
    /\ forallb is_smtp rest = true.
Proof.
  apply (main_explicit_date_single_get Stub.rt Cases.world_ready Cases.stamp
           Cases.args_date).
  - reflexivity.
  - discriminate.
Defined.

Lemma main_fetch_failure_sends_nothing_witness :
  main Stub.rt Examples.world_timeout Cases.stamp Cases.args_walk
  = (Raise (RequestException ReadTimeout),
     snd (digest_input Stub.rt Examples.world_timeout Cases.args_walk))
  /\ forallb (fun ev => negb (is_smtp ev))
       (snd (main Stub.rt Examples.world_timeout Cases.stamp Cases.args_walk)) = true
  /\ exit_status Stub.rt Examples.world_timeout Cases.stamp Cases.args_walk = 1.
Proof.
  apply (main_fetch_failure_sends_nothing Stub.rt Examples.world_timeout Cases.stamp
           Cases.args_walk).
  - reflexivity.
  - reflexivity.
Defined.

Lemma main_selftest_no_fetch_witness :
  forallb is_smtp (snd (main Stub.rt Cases.world_ready Cases.stamp Cases.args_test))
  = true.
Proof.
  apply (main_selftest_no_fetch Stub.rt Cases.world_ready Cases.stamp Cases.args_test).
  reflexivity.
Defined.

(** The run of the self-test: one delivery whose subject names the
    clock text. *)
Example main_selftest_run :
  exists msg,
    main Stub.rt Cases.world_ready Cases.stamp Cases.args_test
    = (Ok tt,
       [EvSmtp (SmtpConnect (lit "smtp.example.org") 587); EvSmtp SmtpEhlo;
        EvSmtp SmtpStarttls; EvSmtp SmtpEhlo;
        EvSmtp (SmtpLogin (lit "digest") (lit "secret"));
        EvSmtp (SmtpSendmail (lit "digest")
                  [lit "ada@example.org"; lit "bob@example.org"] msg);
        EvSmtp SmtpQuit])
    /\ msg_subject msg = zh_selftest ++ lit " - 2026-11-03 08:00:00 CST".
Proof. eexists. split; reflexivity. Qed.

Lemma main_incomplete_config_after_fetch_witness :
  exists e,
    main Stub.rt Cases.world_unconfigured Cases.stamp Cases.args_date
    = (Raise e, [EvGet (fetch_url (lit "2026-11-03"))]).
Proof.
  apply (main_incomplete_config_after_fetch Stub.rt Cases.world_unconfigured
           Cases.stamp Cases.args_date (lit "2026-11-03", [Examples.the_paper])).
  - reflexivity.
  - reflexivity.
  - reflexivity.
  - reflexivity.
Defined.

Lemma main_delivers_digest_witness :
  main Stub.rt Cases.world_quiet Cases.stamp Cases.args_walk
  = (Ok tt,
     [EvGet (fetch_url (lit "2026-11-03")); EvGet (fetch_url (lit "2026-11-02"))]
     ++ delivery_log Cases.world_quiet 587
          (strip (arg_subject_prefix Cases.args_walk ++ header_line (lit "2026-11-03")))
          (build_email_html Stub.rt (lit "2026-11-03") [])
          (build_email_text Stub.rt (lit "2026-11-03") [])).
Proof.
  apply (main_delivers_digest Stub.rt Cases.world_quiet Cases.stamp Cases.args_walk).
  - reflexivity.
  - reflexivity.
  - repeat split; discriminate.
  - reflexivity.
  - reflexivity.
  - reflexivity.
  - reflexivity.
Defined.


(** The run with an explicit date and a prefix: the subject. *)
Example main_subject_run :
  exists msg rest,
    snd (main Stub.rt Cases.world_ready Cases.stamp Cases.args_date)
    = EvGet (fetch_url (lit "2026-11-03")) :: rest
    /\ In (EvSmtp (SmtpSendmail (lit "digest")
                     [lit "ada@example.org"; lit "bob@example.org"] msg)) rest
    /\ msg_subject msg = lit "[HF] Hugging Face Daily Papers - 2026-11-03".
Proof.
  do 2 eexists. split; [reflexivity|]. split.
  - do 5 right. left. reflexivity.
  - reflexivity.
Qed.
